(** * Pinterest image fetcher and downloader: a shallow embedding of [main.py]

    The development follows the layout of the Python module:

    - Python values as the code sees them (parsed JSON, truthiness,
      [dict.get], slicing);
    - the upstream (rendered search page, JSON API, image hosts) as an
      interface whose answers are arbitrary;
    - [fetch_image_urls], [download_image], [download_images] and [main]
      written with explicit state passing: the state holds the upstream,
      the files on disk and the chronological trace of the effects.

    Logging calls do not influence control flow and are left out.

    What is taken from the libraries and from the operating system:
    - a query is a text that [urllib.parse.quote] can encode; it is given
      by the bytes of its UTF-8 encoding ([utf8] tells which byte strings
      are such encodings);
    - [session.get] returns a response or raises a
      [requests.RequestException]; [Response.json] raises the
      [JSONDecodeError] of [requests], a [RequestException];
    - the product of line 193 raises [OverflowError] once [2 ** attempt]
      no longer converts to a float, that is from attempt 1024 on; below
      that it is exact, a multiplication of a float by a power of two;
    - [time.sleep] is modelled on the durations it can convert (up to
      2^63 nanoseconds, some 9.2e9 seconds, in absolute value): there it
      raises [ValueError] on a negative duration and returns otherwise;
      the properties of long retry runs are stated for durations of at
      most 2^33 seconds ([sleeps_within_range]);
    - constructing and closing an [HTMLSession] do not raise;
    - [os.makedirs] refuses the empty path with [FileNotFoundError]; every
      other output directory, and every write into it, is taken to be
      accepted by the file system. *)

From Stdlib Require Import ZArith QArith List String DecimalString DecimalNat.
From stdpp Require Import gmap strings list fin_maps.

Local Open Scope Z_scope.

(** ** Exceptions and results of fallible Python expressions *)

(** The exception classes that matter for the [except] clauses of the
    module: [requests.RequestException] (with its subclasses [HTTPError]
    and [JSONDecodeError]) is the only class the fallback stage and the
    download loop catch; [AttributeError] and [TypeError] are what
    attribute access and iteration raise on a value of the wrong type;
    [ValueError] is what [time.sleep] raises on a negative duration,
    [OverflowError] what the conversion of a large int to a float raises,
    [FileNotFoundError] what [os.makedirs] raises on the empty path. *)
Inductive exn : Type :=
| RequestException
| AttributeError
| TypeError
| ValueError
| OverflowError
| FileNotFoundError.

Inductive outcome (A : Type) : Type :=
| Returns (a : A)
| Raises (e : exn).
Arguments Returns {A} a.
Arguments Raises {A} e.

#[global] Instance outcome_ret : MRet outcome := fun A a => Returns a.

#[global] Instance outcome_bind : MBind outcome := fun A B f x =>
  match x with
  | Returns a => f a
  | Raises e => Raises e
  end.

#[global] Instance outcome_fmap : FMap outcome := fun A B f x =>
  match x with
  | Returns a => Returns (f a)
  | Raises e => Raises e
  end.

(** ** Parsed JSON, as [json.loads] and [Response.json] deliver it *)

(** A [JObj] lists the items of the Python dict in insertion order (keys
    are distinct in a dict produced by the parser).  Numbers are kept as
    integers: on every path below a float behaves as an integer of the same
    truth value. *)
#[local] Set Warnings "-register-all".
Inductive json : Type :=
| JNull
| JBool (b : bool)
| JInt (n : Z)
| JStr (s : string)
| JArr (elems : list json)
| JObj (items : list (string * json)).

(** Python truth value, as tested by [if image_url:] and [if urls:]. *)
Definition truthy (v : json) : bool :=
  match v with
  | JNull => false
  | JBool b => b
  | JInt n => negb (n =? 0)
  | JStr s => negb (String.eqb s EmptyString)
  | JArr elems => match elems with [] => false | _ => true end
  | JObj items => match items with [] => false | _ => true end
  end.

Fixpoint dict_lookup (key : string) (items : list (string * json)) : option json :=
  match items with
  | [] => None
  | (k, v) :: rest => if String.eqb k key then Some v else dict_lookup key rest
  end.

(** [obj.get(key, default)]: only a dict has the method. *)
Definition py_get (obj : json) (key : string) (default : json) : outcome json :=
  match obj with
  | JObj items => Returns (match dict_lookup key items with
                           | Some v => v
                           | None => default
                           end)
  | _ => Raises AttributeError
  end.

(** [obj.values()]. *)
Definition py_values (obj : json) : outcome (list json) :=
  match obj with
  | JObj items => Returns (List.map snd items)
  | _ => Raises AttributeError
  end.

Fixpoint chars (s : string) : list json :=
  match s with
  | EmptyString => []
  | String c rest => JStr (String c EmptyString) :: chars rest
  end.

(** What [for res in obj] iterates over: the elements of a list, the keys
    of a dict, the characters of a string; anything else is not iterable. *)
Definition py_iter (obj : json) : outcome (list json) :=
  match obj with
  | JArr elems => Returns elems
  | JObj items => Returns (List.map (fun kv => JStr (fst kv)) items)
  | JStr s => Returns (chars s)
  | _ => Raises TypeError
  end.

(** [l[:limit]], with Python's reading of a negative bound. *)
Definition py_slice_to {A} (l : list A) (limit : Z) : list A :=
  if 0 <=? limit then firstn (Z.to_nat limit) l
  else firstn (Z.to_nat (Z.of_nat (length l) + limit)) l.

Definition nonempty {A} (l : list A) : bool :=
  match l with [] => false | _ => true end.

(** ** The HTTP session (lines 50-80) *)

Record Session : Type := {
  retry_total : Z;
  retry_backoff_factor : Q;
  status_forcelist : list Z;
  allowed_methods : list string;
  respect_retry_after_header : bool;
  raise_on_status : bool;
  headers : list (string * string)
}.

Definition DEFAULT_UA : string :=
  "Mozilla/5.0 (Windows NT 10.0; Win64; x64) AppleWebKit/537.36 (KHTML, like Gecko) Chrome/124.0 Safari/537.36".

Definition DEFAULT_ACCEPT_LANGUAGE : string := "it-IT,it;q=0.9,en-US;q=0.8".

Definition create_session (total_retries : Z) (backoff_factor : Q)
    (user_agent accept_language : string) : Session :=
  {| retry_total := total_retries;
     retry_backoff_factor := backoff_factor;
     status_forcelist := [403; 429; 500; 502; 503; 504];
     allowed_methods := ["GET"; "HEAD"]%string;
     respect_retry_after_header := true;
     raise_on_status := false;
     headers := [("User-Agent", user_agent);
                 ("Accept-Language", accept_language);
                 ("Accept", "text/html,application/xhtml+xml,application/xml;q=0.9,*/*;q=0.8");
                 ("Connection", "keep-alive")]%string |}.

(** ** The upstream *)

(** What lines 98-105 observe of the rendered search page: an exception
    anywhere in fetch, render or lookup; no [script#__PWS_DATA__] element;
    or the element, with its text and with what [json.loads] makes of that
    text ([None] when it raises). *)
Inductive render_outcome : Type :=
| RenderRaises
| ScriptMissing
| Script (text : string) (loads : option json).

(** An HTTP response: status, body, and the result of [r.json()] ([None]
    when the body is not JSON; [requests] then raises its
    [JSONDecodeError], a [RequestException]). *)
Record response : Type := {
  status_code : Z;
  content : string;
  json_body : option json
}.

(** [session.get] either raises a [requests.RequestException] or returns a
    response. *)
Inductive get_outcome : Type :=
| GetRaises
| Response (r : response).

(** The query parameters of the fallback request that depend on the
    arguments (line 134); the timestamp is the upstream's business. *)
Record api_params : Type := {
  api_query : string;
  api_scope : string;
  api_page_size : Z
}.

Class Upstream (W : Type) : Type := {
  (** [HTMLSession is not None], decided when the module is imported *)
  HTMLSession_available : bool;
  (** lines 98-105 for the given query *)
  render_search : W -> Session -> string -> render_outcome * W;
  (** line 145 *)
  api_get : W -> Session -> api_params -> get_outcome * W;
  (** line 181; the url is whatever value the resolver collected *)
  image_get : W -> Session -> json -> get_outcome * W
}.

(** ** Effects *)

Inductive event : Type :=
| EvRender (query : string)
| EvApiGet (p : api_params)
| EvGet (url : json) (res : get_outcome)
| EvSleep (seconds : Q)
| EvMakedirs (dir : string)
| EvWrite (path : string) (data : string).

(** [dirs] lists the directories the run has made sure of: the paths
    handed to [os.makedirs] (their missing parents come with them and are
    not listed). *)
Record state (W : Type) : Type := mkState {
  world : W;
  files : gmap string string;
  dirs : gset string;
  trace : list event
}.
Arguments mkState {W} _ _ _ _.
Arguments world {W} _.
Arguments files {W} _.
Arguments dirs {W} _.
Arguments trace {W} _.

Definition is_api_get (e : event) : bool :=
  match e with EvApiGet _ => true | _ => false end.

Definition is_write (e : event) : bool :=
  match e with EvWrite _ _ => true | _ => false end.

Definition is_ok_response (e : event) : bool :=
  match e with
  | EvGet _ (Response r) => status_code r =? 200
  | _ => false
  end.

(** Number of fallback requests recorded in a trace. *)
Definition api_requests (tr : list event) : nat :=
  length (List.filter is_api_get tr).

(** ** Resolver: [fetch_image_urls] (lines 86-165) *)

(** Lines 111-115 and line 155. *)
Definition orig_url (pin : json) : outcome json :=
  images ← py_get pin "images" (JObj []);
  orig ← py_get images "orig" (JObj []);
  py_get orig "url" JNull.

(** The extraction loop, written twice in the source (lines 110-119 and
    154-159).  [urls] is the list being appended to; an exception leaves
    what was appended so far in place. *)
Fixpoint collect (entries : list json) (limit : Z) (urls : list json)
    : list json * option exn :=
  match entries with
  | [] => (urls, None)
  | pin :: rest =>
      match orig_url pin with
      | Raises e => (urls, Some e)
      | Returns image_url =>
          if truthy image_url then
            let urls' := urls ++ [image_url] in
            if Z.of_nat (length urls') >=? limit then (urls', None)
            else collect rest limit urls'
          else collect rest limit urls
      end
  end.

(** Line 109. *)
Definition pws_pins (data : json) : outcome json :=
  redux ← py_get data "initialReduxState" (JObj []);
  py_get redux "pins" (JObj []).

(** Lines 106-121: every exception is caught by [except Exception]. *)
Definition parse_pws (page : render_outcome) (limit : Z) (urls : list json)
    : list json :=
  match page with
  | RenderRaises => urls
  | ScriptMissing => urls
  | Script text loads =>
      if negb (String.eqb text EmptyString) then
        match loads with
        | None => urls
        | Some data =>
            match (pins ← pws_pins data; py_values pins) with
            | Raises _ => urls
            | Returns pins => fst (collect pins limit urls)
            end
        end
      else urls
  end.

(** Lines 149-153. *)
Definition api_results (payload : json) : outcome json :=
  rr ← py_get payload "resource_response" (JObj []);
  data ← py_get rr "data" (JObj []);
  py_get data "results" (JArr []).

(** [r.raise_for_status()]: an [HTTPError] for 4xx and 5xx. *)
Definition raise_for_status (r : response) : bool :=
  (400 <=? status_code r) && (status_code r <? 600).

(** Lines 145-159, the body of the [try]. *)
Definition api_walk (res : get_outcome) (limit : Z) (urls : list json)
    : list json * option exn :=
  match res with
  | GetRaises => (urls, Some RequestException)
  | Response r =>
      if raise_for_status r then (urls, Some RequestException)
      else
        match json_body r with
        | None => (urls, Some RequestException)
        | Some payload =>
            match (results ← api_results payload; py_iter results) with
            | Raises e => (urls, Some e)
            | Returns results => collect results limit urls
            end
        end
  end.

(** The parsed command line (lines 232-263). *)
Record Args : Type := {
  query : string;
  output : string;
  num_images : Z;
  ua : string;
  retries : Z;
  backoff : Q
}.

Section Program.
Context {W : Type} `{Upstream W}.

Definition record (ev : event) (w : W) (st : state W) : state W :=
  mkState w (files st) (dirs st) (trace st ++ [ev]).

(** Lines 94-125: the primary stage, run only when [HTMLSession] could
    be imported; returns [urls] as the stage leaves it.  Constructing and
    closing the [HTMLSession] (lines 98 and 125) are taken not to raise. *)
Definition primary_stage (query : string) (limit : Z) (session : Session)
    (st : state W) : list json * state W :=
  let '(page, w1) := render_search (world st) session query in
  (parse_pws page limit [], record (EvRender query) w1 st).

(** Lines 131-165: the fallback stage. *)
Definition fallback_stage (query : string) (limit : Z) (session : Session)
    (urls : list json) (st : state W) : outcome (list json) * state W :=
  let params := {| api_query := query;
                   api_scope := "pins";
                   api_page_size := Z.max 25 limit |} in
  let '(res, w1) := api_get (world st) session params in
  let st1 := record (EvApiGet params) w1 st in
  match api_walk res limit urls with
  | (urls1, None) => (Returns (py_slice_to urls1 limit), st1)
  | (urls1, Some RequestException) => (Returns (py_slice_to urls1 limit), st1)
  | (_, Some e) => (Raises e, st1)
  end.

Definition fetch_image_urls (query : string) (limit : Z) (session : Session)
    (st : state W) : outcome (list json) * state W :=
  if HTMLSession_available then
    let '(urls, st1) := primary_stage query limit session st in
    if nonempty urls then (Returns (py_slice_to urls limit), st1)
    else fallback_stage query limit session urls st1
  else fallback_stage query limit session [] st.

(** What the primary stage leaves in [urls] (nothing when it is skipped)
    and the state it leaves behind. *)
Definition primary_yield (query : string) (limit : Z) (session : Session)
    (st : state W) : list json :=
  if HTMLSession_available then fst (primary_stage query limit session st)
  else [].

Definition after_primary (query : string) (limit : Z) (session : Session)
    (st : state W) : state W :=
  if HTMLSession_available then snd (primary_stage query limit session st)
  else st.

(** ** Download manager (lines 171-226) *)

(** [with open(dest_path, "wb") as fh: fh.write(resp.content)]; the file
    system is taken to accept the directory and every write. *)
Definition write_file (dest_path data : string) (st : state W) : state W :=
  mkState (world st) (<[dest_path := data]> (files st)) (dirs st)
          (trace st ++ [EvWrite dest_path data]).

(** [time.sleep(backoff)] on a duration it can convert: a negative one is
    refused. *)
Definition time_sleep (seconds : Q) (st : state W) : outcome (state W) :=
  if Qle_bool 0 seconds then
    Returns (mkState (world st) (files st) (dirs st)
               (trace st ++ [EvSleep seconds]))
  else Raises ValueError.

(** [os.makedirs(output_dir, exist_ok=True)]: the empty path is refused. *)
Definition makedirs (dir : string) (st : state W) : outcome (state W) :=
  if String.eqb dir EmptyString then Raises FileNotFoundError
  else
    Returns (mkState (world st) (files st) ({[dir]} ∪ dirs st)
               (trace st ++ [EvMakedirs dir])).

(** Line 193: [backoff_factor * (2 ** attempt)].  The int [2 ** attempt]
    is converted to a float, which fails from [2 ** 1024] on; below that
    the product is exact and the float is read as the rational it
    denotes. *)
Definition backoff_delay (backoff_factor : Q) (attempt : Z) : outcome Q :=
  if 1024 <=? attempt then Raises OverflowError
  else Returns (Qmult backoff_factor (inject_Z (2 ^ attempt))).

(** The [for attempt in range(max_retries)] loop of lines 179-204 with
    [n] iterations left; falling out of the loop, like [break], ends in
    [return False] (line 207). *)
Fixpoint download_attempts (n : nat) (attempt : Z) (url : json)
    (dest_path : string) (session : Session) (backoff_factor : Q)
    (st : state W) : outcome bool * state W :=
  match n with
  | O => (Returns false, st)
  | S n' =>
      let '(res, w1) := image_get (world st) session url in
      let st1 := record (EvGet url res) w1 st in
      match res with
      | GetRaises => (Returns false, st1)
      | Response resp =>
          if status_code resp =? 200 then
            (Returns true, write_file dest_path (content resp) st1)
          else if (status_code resp =? 403) || (status_code resp =? 429) then
            match backoff_delay backoff_factor attempt with
            | Returns backoff =>
                match time_sleep backoff st1 with
                | Returns st2 =>
                    download_attempts n' (attempt + 1) url dest_path session
                      backoff_factor st2
                | Raises e => (Raises e, st1)
                end
            | Raises e => (Raises e, st1)
            end
          else (Returns false, st1)
      end
  end.

Definition download_image (url : json) (dest_path : string)
    (session : Session) (max_retries : Z) (backoff_factor : Q)
    (st : state W) : outcome bool * state W :=
  download_attempts (Z.to_nat max_retries) 0 url dest_path session
    backoff_factor st.

(** [os.path.join(a, b)] (POSIX) for a relative [b]. *)
Definition os_path_join (a b : string) : string :=
  if String.eqb a EmptyString then b
  else if String.eqb (String.substring (String.length a - 1) 1 a) "/"
       then a +:+ b
       else a +:+ "/" +:+ b.

(** [f"image_{idx}.jpg"]. *)
Definition image_name (idx : nat) : string :=
  "image_" +:+ NilZero.string_of_uint (Nat.to_uint idx) +:+ ".jpg".

(** The [for idx, url in enumerate(urls, start=1)] loop of lines 220-225. *)
Fixpoint download_each (urls : list json) (idx : nat) (count : Z)
    (output_dir : string) (session : Session) (max_retries : Z)
    (backoff_factor : Q) (st : state W) : outcome Z * state W :=
  match urls with
  | [] => (Returns count, st)
  | url :: rest =>
      let filename := os_path_join output_dir (image_name idx) in
      match download_image url filename session max_retries backoff_factor st with
      | (Returns ok, st1) =>
          download_each rest (S idx) (if ok then count + 1 else count)
            output_dir session max_retries backoff_factor st1
      | (Raises e, st1) => (Raises e, st1)
      end
  end.

Definition download_images (urls : list json) (output_dir : string)
    (session : Session) (max_retries : Z) (backoff_factor : Q)
    (st : state W) : outcome Z * state W :=
  match makedirs output_dir st with
  | Returns st0 =>
      download_each urls 1 0 output_dir session max_retries backoff_factor st0
  | Raises e => (Raises e, st)
  end.

(** ** Orchestrator (lines 266-282), from the parsed arguments on *)

Definition main (args : Args) (st : state W) : outcome Z * state W :=
  let session :=
    create_session (retries args) (backoff args) (ua args)
      DEFAULT_ACCEPT_LANGUAGE in
  let '(found, st1) :=
    fetch_image_urls (query args) (num_images args) session st in
  match found with
  | Raises e => (Raises e, st1)
  | Returns urls =>
      if negb (nonempty urls) then (Returns 2, st1)
      else
        match download_images urls (output args) session 3 1%Q st1 with
        | (Returns ok, st2) => (Returns (if ok >? 0 then 0 else 1), st2)
        | (Raises e, st2) => (Raises e, st2)
        end
  end.

End Program.

(** ** A scripted upstream, to run the program on concrete answers *)

(** The page the renderer delivers, the answer of the fallback API, and for
    each image url the answers of its successive GETs (a url whose script is
    used up, or a url that is not a string, makes [session.get] raise). *)
Record scripted : Type := {
  page : render_outcome;
  api : get_outcome;
  images : list (string * list get_outcome)
}.

Fixpoint pop_script (url : string) (scripts : list (string * list get_outcome))
    : get_outcome * list (string * list get_outcome) :=
  match scripts with
  | [] => (GetRaises, [])
  | (u, answers) :: rest =>
      if String.eqb u url then
        match answers with
        | [] => (GetRaises, scripts)
        | a :: answers' => (a, (u, answers') :: rest)
        end
      else
        let '(a, rest') := pop_script url rest in (a, (u, answers) :: rest')
  end.

Definition scripted_image_get (w : scripted) (url : json) : get_outcome * scripted :=
  match url with
  | JStr u =>
      let '(a, rest) := pop_script u (images w) in
      (a, {| page := page w; api := api w; images := rest |})
  | _ => (GetRaises, w)
  end.

(** [html] tells whether [requests_html] could be imported. *)
Definition scripted_upstream (html : bool) : Upstream scripted :=
  {| HTMLSession_available := html;
     render_search := fun w _ _ => (page w, w);
     api_get := fun w _ _ => (api w, w);
     image_get := fun w _ url => scripted_image_get w url |}.

Definition start {W} (w : W) : state W := mkState w ∅ ∅ [].

Definition ok_response (body : string) : get_outcome :=
  Response {| status_code := 200; content := body; json_body := None |}.

Definition status_response (code : Z) : get_outcome :=
  Response {| status_code := code; content := ""; json_body := None |}.

Definition json_response (payload : json) : get_outcome :=
  Response {| status_code := 200; content := ""; json_body := Some payload |}.

Definition a_session : Session :=
  create_session 5 1%Q DEFAULT_UA DEFAULT_ACCEPT_LANGUAGE.

(** ** What a trace says about the disk *)

(** The writes of a trace, in order. *)
Definition written (tr : list event) : list (string * string) :=
  omap (fun e => match e with EvWrite p d => Some (p, d) | _ => None end) tr.

(** A download that returned [True]. *)
Definition succeeded (res : outcome bool) : bool :=
  match res with
  | Returns true => true
  | _ => false
  end.

(** Replaying writes on a file map. *)
Definition apply_writes (ws : list (string * string)) (fs : gmap string string)
    : gmap string string :=
  foldl (fun m w => <[w.1 := w.2]> m) fs ws.

(** The last value written to [k], or [d] when nothing was. *)
Definition last_write (k : string) (ws : list (string * string))
    (d : option string) : option string :=
  foldl (fun d w => if decide (w.1 = k) then Some w.2 else d) d ws.

(** ** Entries of a raw payload, as the specification reads them *)

(** An entry that carries a non-empty string at [images.orig.url]. *)
Inductive well_formed_entry : json -> string -> Prop :=
| entry_with_url items images orig url :
    dict_lookup "images" items = Some (JObj images) ->
    dict_lookup "orig" images = Some (JObj orig) ->
    dict_lookup "url" orig = Some (JStr url) ->
    url <> EmptyString ->
    well_formed_entry (JObj items) url.

(** An entry where the path [images.orig.url] ends at an absent key, or
    at a value in the place of the url that Python takes for false
    ([null], an empty string, zero). *)
Inductive missing_orig_url : json -> Prop :=
| entry_without_images items :
    dict_lookup "images" items = None ->
    missing_orig_url (JObj items)
| entry_without_orig items images :
    dict_lookup "images" items = Some (JObj images) ->
    dict_lookup "orig" images = None ->
    missing_orig_url (JObj items)
| entry_without_url items images orig :
    dict_lookup "images" items = Some (JObj images) ->
    dict_lookup "orig" images = Some (JObj orig) ->
    dict_lookup "url" orig = None ->
    missing_orig_url (JObj items)
| entry_with_null_url items images orig :
    dict_lookup "images" items = Some (JObj images) ->
    dict_lookup "orig" images = Some (JObj orig) ->
    dict_lookup "url" orig = Some JNull ->
    missing_orig_url (JObj items)
| entry_with_falsy_url items images orig v :
    dict_lookup "images" items = Some (JObj images) ->
    dict_lookup "orig" images = Some (JObj orig) ->
    dict_lookup "url" orig = Some v ->
    truthy v = false ->
    missing_orig_url (JObj items).

(** [discovered entries urls]: [urls] are the urls of the well-formed
    entries of [entries], in order, the entries without the field left
    out. *)
Inductive discovered : list json -> list json -> Prop :=
| discovered_nil : discovered [] []
| discovered_skip e entries urls :
    missing_orig_url e ->
    discovered entries urls ->
    discovered (e :: entries) urls
| discovered_keep e url entries urls :
    well_formed_entry e url ->
    discovered entries urls ->
    discovered (e :: entries) (JStr url :: urls).

(** ** Concrete upstreams *)

Definition pin (url : string) : json :=
  JObj [("id", JInt 7); ("images", JObj [("orig", JObj [("url", JStr url)])])]%string.

Definition pin_without_orig : json :=
  JObj [("images", JObj [("236x", JObj [("url", JStr "https://i.pinimg.com/236x/s.jpg")])])]%string.

Definition pin_without_images : json := JObj [("id", JInt 9)]%string.

Definition pin_with_null_url : json :=
  JObj [("images", JObj [("orig", JObj [("url", JNull)])])]%string.

Definition mixed_entries : list json :=
  [pin_without_images; pin "https://i.pinimg.com/a.jpg"; pin_without_orig;
   pin "https://i.pinimg.com/b.jpg"; pin_with_null_url;
   pin "https://i.pinimg.com/c.jpg"]%string.

Definition pws_data (pins : list (string * json)) : json :=
  JObj [("initialReduxState", JObj [("pins", JObj pins)])]%string.

Definition api_payload (results : list json) : json :=
  JObj [("resource_response", JObj [("data", JObj [("results", JArr results)])])]%string.

(** The page carries pins, some of them without the field. *)
Definition rendered_upstream : scripted :=
  {| page := Script "{...}"
       (Some (pws_data [("1", pin_without_images);
                        ("2", pin "https://i.pinimg.com/a.jpg");
                        ("3", pin_without_orig);
                        ("4", pin "https://i.pinimg.com/b.jpg");
                        ("5", pin_with_null_url);
                        ("6", pin "https://i.pinimg.com/c.jpg")]%string));
     api := GetRaises;
     images := [] |}.

(** No usable page; the API answers with results. *)
Definition api_only_upstream : scripted :=
  {| page := ScriptMissing;
     api := json_response (api_payload mixed_entries);
     images := [] |}.

(** Neither stage delivers anything. *)
Definition silent_upstream : scripted :=
  {| page := ScriptMissing; api := GetRaises; images := [] |}.

(** The page carries the body [{"initialReduxState": null}]; the API is
    out of reach. *)
Definition null_redux_upstream : scripted :=
  {| page := Script "{...}" (Some (JObj [("initialReduxState", JNull)]%string));
     api := GetRaises;
     images := [] |}.

(** The API answers 200 with the body [{"resource_response": null}]. *)
Definition null_resource_upstream : scripted :=
  {| page := ScriptMissing;
     api := json_response (JObj [("resource_response", JNull)]%string);
     images := [] |}.

Definition urlA : string := "https://i.pinimg.com/a.jpg".
Definition urlB : string := "https://i.pinimg.com/b.jpg".
Definition urlC : string := "https://i.pinimg.com/c.jpg".

(** [urlA] answers 200, [urlB] answers 403 three times, [urlC] answers 200. *)
Definition abc_upstream : scripted :=
  {| page := ScriptMissing;
     api := GetRaises;
     images := [(urlA, [ok_response "AAAA"]);
                (urlB, [status_response 403; status_response 403;
                        status_response 403]);
                (urlC, [ok_response "CCCC"])] |}.

(** [urlA] answers 429, 429, 200. *)
Definition throttled_upstream : scripted :=
  {| page := ScriptMissing;
     api := GetRaises;
     images := [(urlA, [status_response 429; status_response 429;
                        ok_response "AAAA"])] |}.

(** [urlA] answers 404. *)
Definition gone_upstream : scripted :=
  {| page := ScriptMissing;
     api := GetRaises;
     images := [(urlA, [status_response 404; ok_response "AAAA"])] |}.

(** The API finds [urlA], [urlB], [urlC]; the image hosts answer as in
    [abc_upstream]. *)
Definition full_upstream : scripted :=
  {| page := ScriptMissing;
     api := json_response (api_payload mixed_entries);
     images := images abc_upstream |}.

Definition some_args (n : Z) : Args :=
  {| query := "gatti"; output := "outdir"; num_images := n;
     ua := DEFAULT_UA; retries := 5; backoff := 1%Q |}.

(** Builds a [discovered] derivation for a concrete list of entries. *)
Ltac show_discovered :=
  repeat first
    [ apply discovered_nil
    | apply discovered_skip;
      [ first [ apply entry_without_images; reflexivity
              | eapply entry_without_orig; reflexivity
              | eapply entry_without_url; reflexivity
              | eapply entry_with_null_url; reflexivity
              | eapply entry_with_falsy_url; reflexivity ] | ]
    | apply discovered_keep;
      [ eapply entry_with_url; [reflexivity | reflexivity | reflexivity | discriminate] | ] ].

(** ** Runs of rate-limit answers *)

Definition is_get (e : event) : bool :=
  match e with EvGet _ _ => true | _ => false end.

Definition is_sleep (e : event) : bool :=
  match e with EvSleep _ => true | _ => false end.

(** The test of line 192. *)
Definition rate_limited (r : response) : bool :=
  (status_code r =? 403) || (status_code r =? 429).

Section Retry_runs.
Context {W : Type} `{Upstream W}.

(** [throttled session url w rs w']: from [w] on, the successive GETs of
    [url] are answered by the responses [rs], each a 403 or a 429, and
    leave the upstream in [w']. *)
Inductive throttled (session : Session) (url : json)
    : W -> list response -> W -> Prop :=
| throttled_done w : throttled session url w [] w
| throttled_again w r w1 rs w' :
    image_get w session url = (Response r, w1) ->
    rate_limited r = true ->
    throttled session url w1 rs w' ->
    throttled session url w (r :: rs) w'.

End Retry_runs.

(** The events of a run of rate-limit answers that starts at attempt
    number [attempt]: each GET is followed by its sleep. *)
Fixpoint throttle_trace (url : json) (backoff_factor : Q) (attempt : Z)
    (rs : list response) : list event :=
  match rs with
  | [] => []
  | r :: rs' =>
      EvGet url (Response r)
      :: EvSleep (Qmult backoff_factor (inject_Z (2 ^ attempt)))
      :: throttle_trace url backoff_factor (attempt + 1) rs'
  end.

Definition forbidden : response :=
  {| status_code := 403; content := ""; json_body := None |}.

Definition too_many : response :=
  {| status_code := 429; content := ""; json_body := None |}.

(** [urlA] answers 429, then 403, then the connection breaks. *)
Definition flaky_upstream : scripted :=
  {| page := ScriptMissing;
     api := GetRaises;
     images := [(urlA, [Response too_many; Response forbidden])] |}.

(** The page carries two pins and then a pin that is a bare string. *)
Definition broken_page_upstream : scripted :=
  {| page := Script "{...}"
       (Some (pws_data [("1", pin urlA); ("2", pin urlB);
                        ("3", JStr "oops"); ("4", pin urlC)]%string));
     api := json_response (api_payload [pin urlC]);
     images := [] |}.

(** The API answers with two results and then a result that is [null]. *)
Definition broken_api_upstream : scripted :=
  {| page := ScriptMissing;
     api := json_response (api_payload [pin urlA; pin urlB; JNull]);
     images := [] |}.

(** The API answers 503. *)
Definition unavailable_upstream : scripted :=
  {| page := ScriptMissing; api := status_response 503; images := [] |}.

(** An answer on which the attempt loop gives up without a retry: a broken
    connection, or a status other than 200, 403 and 429. *)
Definition gives_up (res : get_outcome) : bool :=
  match res with
  | GetRaises => true
  | Response r => negb (status_code r =? 200) && negb (rate_limited r)
  end.

(** An answer of the fallback API from which nothing can be read: a broken
    connection, a 4xx or 5xx status, or a body that is not JSON. *)
Definition api_unusable (res : get_outcome) : bool :=
  match res with
  | GetRaises => true
  | Response r =>
      raise_for_status r
      || match json_body r with None => true | Some _ => false end
  end.

(** The state in which [abc_upstream] is met with a file of notes already
    in the output directory. *)
Definition outdir_with_notes : state scripted :=
  mkState abc_upstream {["outdir/notes.txt"%string := "keep"%string]} ∅ [].

(** Builds a [throttled] derivation for a concrete run of answers. *)
Ltac show_throttled :=
  repeat (eapply throttled_again; [reflexivity | reflexivity | ]);
  apply throttled_done.

(** The durations of a retry run of [attempts] attempts lie where
    [time.sleep] converts them without fail: the longest, slept after the
    last attempt, is at most 2^33 seconds. *)
Definition sleeps_within_range (backoff_factor : Q) (attempts : Z) : Prop :=
  (Qmult backoff_factor (inject_Z (2 ^ (attempts - 1))) <= inject_Z (2 ^ 33))%Q.

(** ** Queries *)



(** ** More concrete upstreams *)




(** * Properties *)

Lemma written_app tr1 tr2 : written (tr1 ++ tr2) = written tr1 ++ written tr2.
Proof. unfold written. apply omap_app. Qed.

Lemma written_is_write tr : length (written tr) = length (List.filter is_write tr).
Proof.
  induction tr as [|e tr IH]; [reflexivity|].
  destruct e; simpl; auto.
Qed.

Lemma apply_writes_app ws1 ws2 fs :
  apply_writes (ws1 ++ ws2) fs = apply_writes ws2 (apply_writes ws1 fs).
Proof. unfold apply_writes. apply foldl_app. Qed.

Lemma apply_writes_lookup ws : forall (fs : gmap string string) k,
  apply_writes ws fs !! k = last_write k ws (fs !! k).
Proof.
  induction ws as [|[p d] ws IH]; intros fs k; [reflexivity|].
  change (apply_writes ((p, d) :: ws) fs) with (apply_writes ws (<[p:=d]> fs)).
  change (last_write k ((p, d) :: ws) (fs !! k))
    with (last_write k ws (if decide (p = k) then Some d else fs !! k)).
  rewrite IH, lookup_insert. reflexivity.
Qed.

Lemma last_write_cases k ws :
  (forall d, last_write k ws d = d) \/ (exists c, forall d, last_write k ws d = Some c).
Proof.
  induction ws as [|[p v] ws IH]; [left; reflexivity|].
  unfold last_write in *. simpl.
  destruct IH as [Hid|[c Hc]].
  - destruct (decide (p = k)).
    + right. exists v. intros d. apply Hid.
    + left. intros d. apply Hid.
  - right. exists c. intros d. apply Hc.
Qed.

(** Replaying the same writes a second time changes nothing. *)
Lemma apply_writes_idemp ws (fs : gmap string string) :
  apply_writes ws (apply_writes ws fs) = apply_writes ws fs.
Proof.
  apply map_eq. intros k. rewrite !apply_writes_lookup.
  destruct (last_write_cases k ws) as [Hid|[c Hc]].
  - rewrite !Hid. reflexivity.
  - rewrite !Hc. reflexivity.
Qed.

Lemma filter_length_app {A} (f : A -> bool) l1 l2 :
  length (List.filter f (l1 ++ l2))
  = (length (List.filter f l1) + length (List.filter f l2))%nat.
Proof. rewrite List.filter_app, length_app. reflexivity. Qed.

(** A non-negative backoff factor gives durations [time.sleep] accepts. *)
Lemma backoff_delay_accepted (backoff_factor : Q) (attempt : Z) :
  (0 <= backoff_factor)%Q ->
  Qle_bool 0 (Qmult backoff_factor (inject_Z (2 ^ attempt))) = true.
Proof.
  intros Hbf. apply Qle_bool_iff.
  apply Qmult_le_0_compat; [exact Hbf|].
  unfold Qle. cbn. pose proof (Z.pow_nonneg 2 attempt). lia.
Qed.

(** Below attempt 1024 the product of line 193 is computed. *)
Lemma backoff_delay_computed (backoff_factor : Q) (attempt : Z) :
  attempt < 1024 ->
  backoff_delay backoff_factor attempt
  = Returns (Qmult backoff_factor (inject_Z (2 ^ attempt))).
Proof.
  intros Hlt. unfold backoff_delay.
  destruct (Z.leb_spec 1024 attempt); [lia|reflexivity].
Qed.

Section Download_facts.
Context {W : Type} `{Upstream W}.

(** C10: with [max_retries <= 0] the attempt loop has no iteration:
    [download_image] returns [False] and leaves the state as it found it,
    so no request is issued, nothing is slept and no file is written. *)
Theorem download_image_without_attempts
    (url : json) (dest_path : string) (session : Session)
    (max_retries : Z) (backoff_factor : Q) (st : state W) :
  max_retries <= 0 ->
  download_image url dest_path session max_retries backoff_factor st
  = (Returns false, st).
Proof.
  intros Hle. unfold download_image.
  replace (Z.to_nat max_retries) with 0%nat by lia. reflexivity.
Qed.

(** C5: a status other than 200, 403 and 429 ends the download at once:
    the result is [False] and the only effect is the one GET (no second
    request, no sleep, no write). *)
Theorem download_image_unexpected_status
    (url : json) (dest_path : string) (session : Session)
    (max_retries : Z) (backoff_factor : Q) (st : state W)
    (resp : response) (w1 : W) :
  0 < max_retries ->
  image_get (world st) session url = (Response resp, w1) ->
  status_code resp <> 200 ->
  status_code resp <> 403 ->
  status_code resp <> 429 ->
  download_image url dest_path session max_retries backoff_factor st
  = (Returns false,
     mkState w1 (files st) (dirs st)
       (trace st ++ [EvGet url (Response resp)])).
Proof.
  intros Hpos Hget H200 H403 H429. unfold download_image.
  destruct (Z.to_nat max_retries) as [|n] eqn:En; [lia|].
  cbn [download_attempts]. rewrite Hget.
  apply Z.eqb_neq in H200, H403, H429.
  rewrite H200, H403, H429. reflexivity.
Qed.

(** C4: 429, 429, 200 with at least three attempts allowed (and a backoff
    factor that is not negative): success on the third GET, with exactly
    two sleeps, of [backoff_factor * 1] before the second GET and
    [backoff_factor * 2] before the third; the body of the third response
    is written to [dest_path]. *)
Theorem download_image_retries_rate_limit
    (url : json) (dest_path : string) (session : Session)
    (max_retries : Z) (backoff_factor : Q) (st : state W)
    (r1 r2 r3 : response) (w1 w2 w3 : W) :
  3 <= max_retries ->
  (0 <= backoff_factor)%Q ->
  image_get (world st) session url = (Response r1, w1) ->
  status_code r1 = 429 ->
  image_get w1 session url = (Response r2, w2) ->
  status_code r2 = 429 ->
  image_get w2 session url = (Response r3, w3) ->
  status_code r3 = 200 ->
  download_image url dest_path session max_retries backoff_factor st
  = (Returns true,
     mkState w3 (<[dest_path := content r3]> (files st)) (dirs st)
       (trace st ++
        [EvGet url (Response r1); EvSleep (backoff_factor * 1)%Q;
         EvGet url (Response r2); EvSleep (backoff_factor * 2)%Q;
         EvGet url (Response r3); EvWrite dest_path (content r3)])).
Proof.
  intros Hmax Hbf G1 S1 G2 S2 G3 S3. unfold download_image.
  destruct (Z.to_nat max_retries) as [|[|[|n]]] eqn:En; try lia.
  pose proof (backoff_delay_accepted backoff_factor 0 Hbf) as B0.
  pose proof (backoff_delay_accepted backoff_factor (0 + 1) Hbf) as B1.
  cbn [download_attempts]. unfold time_sleep, record, write_file.
  cbn [world files dirs trace].
  rewrite G1, S1.
  change (429 =? 200) with false.
  change ((429 =? 403) || (429 =? 429)) with true. cbv iota.
  rewrite (backoff_delay_computed backoff_factor 0) by lia.
  rewrite B0. cbn [world files dirs trace]. rewrite G2, S2.
  change (429 =? 200) with false.
  change ((429 =? 403) || (429 =? 429)) with true. cbv iota.
  rewrite (backoff_delay_computed backoff_factor (0 + 1)) by lia.
  rewrite B1. cbn [world files dirs trace]. rewrite G3, S3.
  change (200 =? 200) with true. cbv iota.
  rewrite <- !app_assoc. reflexivity.
Qed.

(** One run of the attempt loop, seen from outside: its result, the
    upstream it leaves and the events it adds are fixed by the upstream it
    starts from; files and trace only receive the additions. *)
Lemma download_attempts_shape (url : json) (dest_path : string)
    (session : Session) (backoff_factor : Q) (n : nat) :
  forall (attempt : Z) (w : W),
  exists (res : outcome bool) (w' : W) (new : list event),
    (forall fs ds tr,
       download_attempts n attempt url dest_path session backoff_factor
         (mkState w fs ds tr)
       = (res, mkState w' (apply_writes (written new) fs) ds (tr ++ new)))
    /\ (if succeeded res then exists d, written new = [(dest_path, d)]
        else written new = [])
    /\ length (List.filter is_ok_response new)
       = (if succeeded res then 1 else 0)%nat
    /\ ((0 <= backoff_factor)%Q -> attempt + Z.of_nat n <= 1024 ->
        exists ok, res = Returns ok).
Proof.
  induction n as [|n IH]; intros attempt w.
  - exists (Returns false), w, []. repeat split; eauto.
    intros fs ds tr. cbn. rewrite app_nil_r. reflexivity.
  - destruct (image_get w session url) as [res w1] eqn:Hget.
    destruct res as [|resp].
    + exists (Returns false), w1, [EvGet url GetRaises]. repeat split; eauto.
      intros fs ds tr. cbn. rewrite Hget. reflexivity.
    + destruct (status_code resp =? 200) eqn:E200.
      * exists (Returns true), w1,
          [EvGet url (Response resp); EvWrite dest_path (content resp)].
        split; [|split; [|split]].
        -- intros fs ds tr. cbn. rewrite Hget, E200. cbn.
           unfold write_file. cbn. rewrite <- app_assoc. reflexivity.
        -- eexists. reflexivity.
        -- cbn. rewrite E200. reflexivity.
        -- eauto.
      * destruct ((status_code resp =? 403) || (status_code resp =? 429))
          eqn:Eretry.
        -- destruct (backoff_delay backoff_factor attempt) as [backoff|e]
             eqn:Edelay.
           ++ destruct (Qle_bool 0 backoff) eqn:Esleep.
              ** destruct (IH (attempt + 1) w1)
                   as (res & w' & new & Hrun & Hw & Hok & Hret).
                 exists res, w',
                   (EvGet url (Response resp) :: EvSleep backoff :: new).
                 split; [|split; [|split]].
                 --- intros fs ds tr. cbn [download_attempts world].
                     rewrite Hget, E200, Eretry, Edelay.
                     unfold time_sleep, record. cbn [world files dirs trace].
                     rewrite Esleep, Hrun, <- !app_assoc. reflexivity.
                 --- exact Hw.
                 --- cbn. rewrite E200. exact Hok.
                 --- intros Hbf Hmax. apply Hret; [exact Hbf|lia].
              ** exists (Raises ValueError), w1, [EvGet url (Response resp)].
                 split; [|split; [|split]].
                 --- intros fs ds tr. cbn [download_attempts world].
                     rewrite Hget, E200, Eretry, Edelay.
                     unfold time_sleep, record. cbn [world files dirs trace].
                     rewrite Esleep. reflexivity.
                 --- reflexivity.
                 --- cbn. rewrite E200. reflexivity.
                 --- intros Hbf Hmax.
                     rewrite backoff_delay_computed in Edelay by lia.
                     injection Edelay as <-.
                     rewrite (backoff_delay_accepted _ attempt Hbf) in Esleep.
                     discriminate.
           ++ exists (Raises e), w1, [EvGet url (Response resp)].
              split; [|split; [|split]].
              ** intros fs ds tr. cbn [download_attempts world].
                 rewrite Hget, E200, Eretry, Edelay. reflexivity.
              ** reflexivity.
              ** cbn. rewrite E200. reflexivity.
              ** intros Hbf Hmax.
                 rewrite backoff_delay_computed in Edelay by lia.
                 discriminate.
        -- exists (Returns false), w1, [EvGet url (Response resp)].
           split; [|split; [|split]].
           ++ intros fs ds tr. cbn. rewrite Hget, E200, Eretry. reflexivity.
           ++ reflexivity.
           ++ cbn. rewrite E200. reflexivity.
           ++ eauto.
Qed.

(** The same for the loop over the urls: [res] is the number of successes
    to add to the running count, one per write and one per 200 answer, and
    every write goes to the positional name of the url it belongs to. *)
Lemma download_each_shape (output_dir : string) (session : Session)
    (max_retries : Z) (backoff_factor : Q) (urls : list json) :
  forall (idx : nat) (w : W),
  exists (res : outcome Z) (w' : W) (new : list event),
    (forall count fs ds tr,
       download_each urls idx count output_dir session max_retries
         backoff_factor (mkState w fs ds tr)
       = (Z.add count <$> res,
          mkState w' (apply_writes (written new) fs) ds (tr ++ new)))
    /\ (forall c, res = Returns c ->
          c = Z.of_nat (length (written new))
          /\ c = Z.of_nat (length (List.filter is_ok_response new))
          /\ 0 <= c <= Z.of_nat (length urls))
    /\ Forall (fun p => exists i : nat,
                 (idx <= i < idx + length urls)%nat /\
                 p.1 = os_path_join output_dir (image_name i))
              (written new)
    /\ ((0 <= backoff_factor)%Q -> max_retries <= 1024 ->
        exists c, res = Returns c).
Proof.
  induction urls as [|url rest IH]; intros idx w.
  - exists (Returns 0), w, []. split; [|split; [|split]].
    + intros count fs ds tr. cbn. rewrite Z.add_0_r, app_nil_r. reflexivity.
    + intros c [= <-]. cbn. lia.
    + constructor.
    + eauto.
  - destruct (download_attempts_shape url
                (os_path_join output_dir (image_name idx)) session
                backoff_factor (Z.to_nat max_retries) 0 w)
      as (res1 & w1 & new1 & Hrun1 & Hw1 & Hok1 & Hret1).
    destruct res1 as [ok|e].
    + destruct (IH (S idx) w1)
        as (res2 & w' & new2 & Hrun2 & Hcount & Hpos & Hret2).
      exists (Z.add (if ok then 1 else 0) <$> res2), w', (new1 ++ new2).
      split; [|split; [|split]].
      * intros count fs ds tr. cbn [download_each]. unfold download_image.
        rewrite Hrun1, Hrun2, written_app, apply_writes_app, app_assoc.
        f_equal. destruct res2 as [c|e]; [|reflexivity].
        cbn. f_equal. destruct ok; lia.
      * intros c Hc. destruct res2 as [c2|e]; [|discriminate].
        cbn in Hc. injection Hc as <-.
        destruct (Hcount c2 eq_refl) as (Hc1 & Hc2 & Hc3).
        rewrite written_app, length_app, filter_length_app, Hok1.
        cbn [length].
        destruct ok; cbn [succeeded] in *;
          [destruct Hw1 as [d ->]|rewrite Hw1]; cbn [length]; lia.
      * rewrite written_app. apply Forall_app. split.
        -- destruct ok; cbn [succeeded] in Hw1;
             [destruct Hw1 as [d ->]|rewrite Hw1]; constructor;
             [|constructor].
           exists idx. split; [cbn [length]; lia|reflexivity].
        -- eapply Forall_impl; [exact Hpos|].
           intros p (i & Hi & Hp). exists i.
           split; [cbn [length]; lia|exact Hp].
      * intros Hbf Hmax. destruct (Hret2 Hbf Hmax) as [c ->]. cbn. eauto.
    + exists (Raises e), w1, new1. split; [|split; [|split]].
      * intros count fs ds tr. cbn [download_each]. unfold download_image.
        rewrite Hrun1. reflexivity.
      * intros c Hc. discriminate.
      * cbn [succeeded] in Hw1. rewrite Hw1. constructor.
      * intros Hbf Hmax. destruct (Hret1 Hbf) as [ok Hok]; [lia|discriminate].
Qed.

Lemma download_each_app (urls2 : list json) (output_dir : string)
    (session : Session) (max_retries : Z) (backoff_factor : Q)
    (urls1 : list json) :
  forall (idx : nat) (count : Z) (st : state W),
  download_each (urls1 ++ urls2) idx count output_dir session max_retries
    backoff_factor st
  = match download_each urls1 idx count output_dir session max_retries
            backoff_factor st with
    | (Returns count1, st1) =>
        download_each urls2 (idx + length urls1) count1 output_dir session
          max_retries backoff_factor st1
    | (Raises e, st1) => (Raises e, st1)
    end.
Proof.
  induction urls1 as [|url rest IH]; intros idx count st.
  - cbn. rewrite Nat.add_0_r. reflexivity.
  - cbn [app download_each length].
    destruct (download_image _ _ _ _ _ _) as [[ok|e] st1]; [|reflexivity].
    rewrite IH.
    replace (S idx + length rest)%nat with (idx + S (length rest))%nat by lia.
    reflexivity.
Qed.

(** [download_images], seen from outside: [made] is what the run adds to
    the directories, nothing when the output directory is refused. *)
Lemma download_images_shape (urls : list json) (output_dir : string)
    (session : Session) (max_retries : Z) (backoff_factor : Q) (w : W) :
  exists (res : outcome Z) (w' : W) (new : list event) (made : gset string),
    (forall fs ds tr,
       download_images urls output_dir session max_retries backoff_factor
         (mkState w fs ds tr)
       = (res, mkState w' (apply_writes (written new) fs) (made ∪ ds)
                 (tr ++ new)))
    /\ (forall c, res = Returns c ->
          c = Z.of_nat (length (List.filter is_write new))
          /\ c = Z.of_nat (length (List.filter is_ok_response new))
          /\ 0 <= c <= Z.of_nat (length urls))
    /\ Forall (fun p => exists i : nat,
                 (1 <= i <= length urls)%nat /\
                 p.1 = os_path_join output_dir (image_name i))
              (written new)
    /\ ((0 <= backoff_factor)%Q -> max_retries <= 1024 ->
        output_dir <> EmptyString -> exists c, res = Returns c).
Proof.
  unfold download_images, makedirs.
  destruct (String.eqb_spec output_dir EmptyString) as [Hdir|Hdir].
  - exists (Raises FileNotFoundError), w, [], ∅.
    split; [|split; [|split]].
    + intros fs ds tr. rewrite app_nil_r, (left_id_L ∅ (∪)). reflexivity.
    + discriminate.
    + constructor.
    + intros _ _ Hne. contradiction.
  - destruct (download_each_shape output_dir session max_retries
                backoff_factor urls 1%nat w)
      as (res & w' & new & Hrun & Hcount & Hpos & Hret).
    exists res, w', (EvMakedirs output_dir :: new), {[output_dir]}.
    split; [|split; [|split]].
    + intros fs ds tr. cbn [world files dirs trace].
      rewrite Hrun, <- app_assoc. destruct res; reflexivity.
    + intros c Hc. destruct (Hcount c Hc) as (Hc1 & Hc2 & Hc3).
      cbn. rewrite <- written_is_write. auto.
    + cbn. eapply Forall_impl; [exact Hpos|].
      intros p (i & Hi & Hp). exists i. split; [lia|exact Hp].
    + intros Hbf Hmax _. exact (Hret Hbf Hmax).
Qed.

(** C9: a second run of [download_images] on the directory the first run
    filled, against an upstream that answers as it did the first time,
    performs the same writes to the same positional names
    [image_1.jpg], [image_2.jpg], ...; the files on disk after the second
    run are those after the first, in names and in contents. *)
Theorem download_images_rerun_overwrites
    (urls : list json) (output_dir : string) (session : Session)
    (max_retries : Z) (backoff_factor : Q) (st : state W) :
  let first :=
    download_images urls output_dir session max_retries backoff_factor st in
  let again :=
    download_images urls output_dir session max_retries backoff_factor
      (mkState (world st) (files (snd first)) (dirs (snd first))
         (trace (snd first))) in
  (exists new : list event,
      trace (snd first) = trace st ++ new /\
      trace (snd again) = trace (snd first) ++ new /\
      Forall (fun p => exists i : nat,
                  (1 <= i <= length urls)%nat /\
                  p.1 = os_path_join output_dir (image_name i))
             (written new))
  /\ fst again = fst first
  /\ files (snd again) = files (snd first)
  /\ dom (files (snd again)) = dom (files (snd first))
  /\ dirs (snd again) = dirs (snd first).
Proof.
  destruct st as [w fs ds tr]. cbn [world].
  destruct (download_images_shape urls output_dir session max_retries
              backoff_factor w) as (res & w' & new & made & Hrun & _ & Hpos & _).
  cbv zeta. rewrite Hrun. cbn [fst snd files dirs trace]. rewrite Hrun.
  cbn [fst snd files dirs trace]. rewrite apply_writes_idemp.
  split; [|split; [|split; [|split]]]; try reflexivity.
  - exists new. auto.
  - rewrite (assoc_L (∪)), (idemp_L (∪)). reflexivity.
Qed.

End Download_facts.

(** ** The extraction loop *)

Lemma well_formed_entry_orig_url e url :
  well_formed_entry e url ->
  orig_url e = Returns (JStr url) /\ truthy (JStr url) = true.
Proof.
  intros [items images orig u Hi Ho Hu Hne]. split.
  - unfold orig_url. cbn. rewrite Hi. cbn. rewrite Ho. cbn. rewrite Hu.
    reflexivity.
  - cbn. destruct (String.eqb_spec u EmptyString); [contradiction|reflexivity].
Qed.

Lemma missing_orig_url_skipped e :
  missing_orig_url e ->
  exists v, orig_url e = Returns v /\ truthy v = false.
Proof.
  intros [items Hi|items images Hi Ho|items images orig Hi Ho Hu
          |items images orig Hi Ho Hu|items images orig v Hi Ho Hu Hv];
    unfold orig_url; cbn; rewrite Hi; cbn; try rewrite Ho; cbn;
    try rewrite Hu; eauto.
Qed.





(** With a non-positive limit the loop never holds more than one url, so
    the final slice is empty whatever the entries are. *)
Lemma collect_nonpositive_slice limit entries :
  limit <= 0 ->
  py_slice_to (fst (collect entries limit [])) limit = [].
Proof.
  intros Hle.
  assert (Hlen : (length (fst (collect entries limit [])) <= 1)%nat).
  { induction entries as [|e entries IH]; [cbn; lia|].
    cbn [collect]. destruct (orig_url e) as [v|x]; [|cbn; lia].
    destruct (truthy v); [|exact IH].
    cbn [app length].
    destruct (Z.geb_spec (Z.of_nat 1) limit); [cbn; lia|lia]. }
  unfold py_slice_to. destruct (Z.leb_spec 0 limit).
  - replace (Z.to_nat limit) with 0%nat by lia. reflexivity.
  - replace (Z.to_nat (Z.of_nat (length (fst (collect entries limit []))) + limit))
      with 0%nat by lia. reflexivity.
Qed.

Lemma py_slice_to_nil {A} limit : py_slice_to (@nil A) limit = [].
Proof. unfold py_slice_to. destruct (0 <=? limit); apply firstn_nil. Qed.

Lemma parse_pws_nonpositive page limit :
  limit <= 0 -> py_slice_to (parse_pws page limit []) limit = [].
Proof.
  intros Hle. unfold parse_pws.
  destruct page as [| |text [data|]]; try apply py_slice_to_nil.
  - destruct (negb (String.eqb text EmptyString)); [|apply py_slice_to_nil].
    destruct (pins ← pws_pins data; py_values pins) as [pins|e];
      [|apply py_slice_to_nil].
    apply collect_nonpositive_slice. exact Hle.
  - destruct (negb (String.eqb text EmptyString)); apply py_slice_to_nil.
Qed.

Lemma api_walk_nonpositive res limit :
  limit <= 0 -> py_slice_to (fst (api_walk res limit [])) limit = [].
Proof.
  intros Hle. unfold api_walk.
  destruct res as [|r]; [apply py_slice_to_nil|].
  destruct (raise_for_status r); [apply py_slice_to_nil|].
  destruct (json_body r) as [payload|]; [|apply py_slice_to_nil].
  destruct (results ← api_results payload; py_iter results) as [results|e];
    [|apply py_slice_to_nil].
  apply collect_nonpositive_slice. exact Hle.
Qed.

Lemma api_requests_snoc tr ev :
  api_requests (tr ++ [ev])
  = (api_requests tr + if is_api_get ev then 1 else 0)%nat.
Proof.
  unfold api_requests. rewrite filter_length_app. cbn.
  destruct (is_api_get ev); reflexivity.
Qed.

(** Well-formed and field-less entries at the head of a payload, with room
    left under the limit for all their urls: the loop goes on after them
    with these urls appended. *)
Lemma collect_app_room limit good found more :
  discovered good found ->
  forall urls,
    Z.of_nat (length urls) + Z.of_nat (length found) < limit ->
    collect (good ++ more) limit urls = collect more limit (urls ++ found).
Proof.
  induction 1 as [|e entries found Hmiss _ IH|e u entries found Hwf _ IH];
    intros urls Hroom.
  - cbn. rewrite app_nil_r. reflexivity.
  - cbn [app collect]. destruct (missing_orig_url_skipped e Hmiss) as (v & -> & ->).
    apply IH. exact Hroom.
  - cbn [app collect]. destruct (well_formed_entry_orig_url e u Hwf) as [-> ->].
    cbn [length] in Hroom. rewrite length_app. cbn [length].
    destruct (Z.geb_spec (Z.of_nat (length urls + 1)) limit) as [Hfull|Hmore];
      [lia|].
    rewrite IH by (rewrite length_app; cbn [length]; lia).
    rewrite <- app_assoc. reflexivity.
Qed.

(** The same entries when their urls fill the list up to the limit: the
    loop stops at the last of them and does not look at what follows. *)
Lemma collect_app_full limit good found more :
  discovered good found ->
  found <> [] ->
  forall urls,
    Z.of_nat (length urls) + Z.of_nat (length found) = limit ->
    collect (good ++ more) limit urls = (urls ++ found, None).
Proof.
  induction 1 as [|e entries found Hmiss _ IH|e u entries found Hwf Hd IH];
    intros Hne urls Hfull.
  - contradiction.
  - cbn [app collect]. destruct (missing_orig_url_skipped e Hmiss) as (v & -> & ->).
    apply IH; assumption.
  - cbn [app collect]. destruct (well_formed_entry_orig_url e u Hwf) as [-> ->].
    cbn [length] in Hfull. rewrite length_app. cbn [length].
    destruct found as [|u' found].
    + destruct (Z.geb_spec (Z.of_nat (length urls + 1)) limit); [reflexivity|].
      cbn [length] in Hfull. lia.
    + destruct (Z.geb_spec (Z.of_nat (length urls + 1)) limit) as [Hge|Hlt].
      * cbn [length] in Hfull. lia.
      * rewrite IH; [rewrite <- app_assoc; reflexivity|discriminate|].
        rewrite length_app. cbn [length] in *. lia.
Qed.

Section Resolver_facts.
Context {W : Type} `{Upstream W}.

(** The resolver is its two stages in sequence: the primary yield when
    it is not empty, the fallback stage otherwise. *)
Lemma fetch_image_urls_stages query limit session (st : state W) :
  fetch_image_urls query limit session st
  = if nonempty (primary_yield query limit session st)
    then (Returns (py_slice_to (primary_yield query limit session st) limit),
          after_primary query limit session st)
    else fallback_stage query limit session []
           (after_primary query limit session st).
Proof.
  unfold fetch_image_urls, primary_yield, after_primary.
  destruct HTMLSession_available; [|reflexivity].
  destruct (primary_stage query limit session st) as [urls st1].
  cbn [fst snd]. destruct urls; reflexivity.
Qed.

Lemma after_primary_api_requests query limit session (st : state W) :
  api_requests (trace (after_primary query limit session st))
  = api_requests (trace st).
Proof.
  unfold after_primary, primary_stage.
  destruct HTMLSession_available; [|reflexivity].
  destruct (render_search (world st) session query) as [page w1].
  unfold record. cbn [snd trace]. rewrite api_requests_snoc. cbn. lia.
Qed.

Lemma fallback_stage_api_requests query limit session urls (st : state W) :
  api_requests (trace (snd (fallback_stage query limit session urls st)))
  = S (api_requests (trace st)).
Proof.
  unfold fallback_stage.
  destruct (api_get (world st) session _) as [res w1].
  destruct (api_walk res limit urls) as [urls1 [[| | | | |]|]];
    unfold record; cbn [snd trace];
    rewrite api_requests_snoc; cbn; lia.
Qed.

Lemma after_primary_writes query limit session (st : state W) :
  List.filter is_write (trace (after_primary query limit session st))
  = List.filter is_write (trace st).
Proof.
  unfold after_primary, primary_stage.
  destruct HTMLSession_available; [|reflexivity].
  destruct (render_search (world st) session query) as [page w1].
  unfold record. cbn [snd trace]. rewrite List.filter_app. cbn.
  apply app_nil_r.
Qed.

Lemma fetch_image_urls_writes query limit session (st : state W) :
  List.filter is_write (trace (snd (fetch_image_urls query limit session st)))
  = List.filter is_write (trace st).
Proof.
  rewrite fetch_image_urls_stages.
  destruct (nonempty (primary_yield query limit session st)).
  - apply after_primary_writes.
  - rewrite <- (after_primary_writes query limit session st).
    unfold fallback_stage.
    destruct (api_get (world (after_primary query limit session st)) session _)
      as [res w1].
    destruct (api_walk res limit []) as [urls1 [[| | | | |]|]];
      unfold record; cbn [snd trace];
      rewrite List.filter_app; cbn; apply app_nil_r.
Qed.

(** The fallback stage started on an empty list, with a non-positive
    limit: the empty list, or an exception other than a
    [RequestException]. *)
Lemma fallback_stage_nonpositive query limit session (st : state W) :
  limit <= 0 ->
  fst (fallback_stage query limit session [] st) = Returns []
  \/ exists e, fst (fallback_stage query limit session [] st) = Raises e
               /\ e <> RequestException.
Proof.
  intros Hle. unfold fallback_stage.
  destruct (api_get (world st) session _) as [res w1].
  pose proof (api_walk_nonpositive res limit Hle) as Hslice.
  destruct (api_walk res limit []) as [urls1 [[| | | | |]|]]; cbn in *.
  - left. rewrite Hslice. reflexivity.
  - right. exists AttributeError. split; [reflexivity|discriminate].
  - right. exists TypeError. split; [reflexivity|discriminate].
  - right. exists ValueError. split; [reflexivity|discriminate].
  - right. exists OverflowError. split; [reflexivity|discriminate].
  - right. exists FileNotFoundError. split; [reflexivity|discriminate].
  - left. rewrite Hslice. reflexivity.
Qed.

(** C2: the fallback request is sent exactly once when the primary stage
    yields nothing and not at all when it yields something; in the latter
    case the primary yield, cut to [limit], is the result. *)
Theorem fallback_runs_iff_primary_empty query limit session (st : state W) :
  let primary := primary_yield query limit session st in
  let run := fetch_image_urls query limit session st in
  (primary = [] ->
     api_requests (trace (snd run)) = S (api_requests (trace st)))
  /\ (primary <> [] ->
        api_requests (trace (snd run)) = api_requests (trace st)
        /\ fst run = Returns (py_slice_to primary limit)).
Proof.
  cbv zeta. rewrite fetch_image_urls_stages. split.
  - intros ->. cbn [nonempty].
    rewrite fallback_stage_api_requests, after_primary_api_requests.
    reflexivity.
  - intros Hne.
    destruct (primary_yield query limit session st) as [|u urls];
      [contradiction|].
    cbn [nonempty fst snd]. rewrite after_primary_api_requests.
    split; reflexivity.
Qed.

(** C1, as the code has it: a non-positive limit is not special-cased.
    When the primary stage collected a url the result is the empty list
    and no fallback request is sent; when it collected nothing the
    fallback request is sent, once; the result is then the empty list
    whenever the walk of the API answer ends without an exception or in a
    [RequestException], and in no case a non-empty list. *)
Theorem fetch_image_urls_nonpositive_limit query limit session (st : state W) :
  limit <= 0 ->
  let primary := primary_yield query limit session st in
  let run := fetch_image_urls query limit session st in
  (primary <> [] ->
     fst run = Returns []
     /\ api_requests (trace (snd run)) = api_requests (trace st))
  /\ (primary = [] ->
        api_requests (trace (snd run)) = S (api_requests (trace st))
        /\ (fst run = Returns []
            \/ exists e, fst run = Raises e /\ e <> RequestException)
        /\ (forall res w1,
              api_get (world (after_primary query limit session st)) session
                {| api_query := query; api_scope := "pins";
                   api_page_size := Z.max 25 limit |} = (res, w1) ->
              snd (api_walk res limit []) = None
              \/ snd (api_walk res limit []) = Some RequestException ->
              fst run = Returns [])).
Proof.
  intros Hle. cbv zeta. rewrite fetch_image_urls_stages. split.
  - intros Hne.
    assert (Hslice : py_slice_to (primary_yield query limit session st) limit = []).
    { unfold primary_yield, primary_stage.
      destruct HTMLSession_available; [|apply py_slice_to_nil].
      destruct (render_search (world st) session query) as [page w1].
      cbn [fst]. apply parse_pws_nonpositive. exact Hle. }
    destruct (primary_yield query limit session st) as [|u urls];
      [contradiction|].
    cbn [nonempty fst snd]. rewrite Hslice, after_primary_api_requests.
    split; reflexivity.
  - intros ->. cbn [nonempty].
    rewrite fallback_stage_api_requests, after_primary_api_requests.
    split; [reflexivity|]. split.
    + apply fallback_stage_nonpositive. exact Hle.
    + intros res w1 Hget Hclean. unfold fallback_stage. rewrite Hget.
      pose proof (api_walk_nonpositive res limit Hle) as Hslice.
      destruct (api_walk res limit []) as [urls1 oe]. cbn [fst snd] in *.
      destruct Hclean as [-> | ->]; cbn [fst]; rewrite Hslice; reflexivity.
Qed.


End Resolver_facts.


(** ** The claims on concrete upstreams *)


(** C1, as stated, fails: with limit 0 and no usable primary stage the
    fallback request is built and sent all the same. *)
Lemma fetch_image_urls_zero_limit_calls_api :
  let run := @fetch_image_urls scripted (scripted_upstream false)
               "gatti" 0 a_session (start silent_upstream) in
  0 <= 0
  /\ trace (snd run)
     = [EvApiGet {| api_query := "gatti"; api_scope := "pins";
                    api_page_size := 25 |}]
  /\ ~ (fst run = Returns [] /\ api_requests (trace (snd run)) = 0%nat).
Proof.
  cbv zeta. split; [lia|]. split; [reflexivity|].
  intros [_ Hcount]. vm_compute in Hcount. discriminate.
Qed.

(** C3 fails on the code: the fallback API answers 200 with the JSON body
    [{"resource_response": null}]; [payload.get("resource_response", {})]
    is [None], the next [.get] raises [AttributeError], and
    [except requests.RequestException] lets it through to the caller.
    The same [null] one level down in the page payload is swallowed by the
    [except Exception] of the primary stage. *)
Theorem fetch_image_urls_lets_attribute_error_through :
  fst (@fetch_image_urls scripted (scripted_upstream true)
         "gatti" 5 a_session (start null_resource_upstream))
  = Raises AttributeError
  /\ pws_pins (JObj [("initialReduxState", JNull)]%string)
     = Raises AttributeError
  /\ fst (@fetch_image_urls scripted (scripted_upstream true)
            "gatti" 5 a_session (start null_redux_upstream))
     = Returns [].
Proof.
  split; [|split].
  - unfold fetch_image_urls, primary_stage, fallback_stage. cbn.
    reflexivity.
  - reflexivity.
  - vm_compute. reflexivity.
Qed.







(** C10 on [abc_upstream] with [max_retries = 0]. *)
Lemma download_image_without_attempts_witness :
  0 <= 0
  /\ @download_image scripted (scripted_upstream true) (JStr urlA)
       "outdir/image_1.jpg" a_session 0 1%Q (start abc_upstream)
     = (Returns false, start abc_upstream).
Proof.
  split; [lia|].
  apply (@download_image_without_attempts scripted (scripted_upstream true)).
  lia.
Defined.

(** C5 on a url that answers 404. *)
Lemma download_image_unexpected_status_witness :
  @download_image scripted (scripted_upstream true) (JStr urlA)
    "outdir/image_1.jpg" a_session 3 1%Q (start gone_upstream)
  = (Returns false,
     mkState {| page := ScriptMissing; api := GetRaises;
                images := [(urlA, [ok_response "AAAA"])] |}
       ∅ ∅ [EvGet (JStr urlA) (status_response 404)]).
Proof.
  apply (@download_image_unexpected_status scripted (scripted_upstream true)
           (JStr urlA) "outdir/image_1.jpg" a_session 3 1%Q
           (start gone_upstream)
           {| status_code := 404; content := ""; json_body := None |}).
  - lia.
  - reflexivity.
  - simpl. lia.
  - simpl. lia.
  - simpl. lia.
Defined.

(** C4 on a url that answers 429, 429, 200, with a backoff factor of one
    half. *)
Lemma download_image_retries_rate_limit_witness :
  @download_image scripted (scripted_upstream true) (JStr urlA)
    "outdir/image_1.jpg" a_session 3 (1 # 2)%Q (start throttled_upstream)
  = (Returns true,
     mkState {| page := ScriptMissing; api := GetRaises;
                images := [(urlA, [])] |}
       (<["outdir/image_1.jpg"%string := "AAAA"%string]> ∅) ∅
       [EvGet (JStr urlA) (status_response 429); EvSleep ((1 # 2) * 1)%Q;
        EvGet (JStr urlA) (status_response 429); EvSleep ((1 # 2) * 2)%Q;
        EvGet (JStr urlA) (ok_response "AAAA");
        EvWrite "outdir/image_1.jpg" "AAAA"]).
Proof.
  apply (@download_image_retries_rate_limit scripted (scripted_upstream true)
           (JStr urlA) "outdir/image_1.jpg" a_session 3 (1 # 2)%Q
           (start throttled_upstream)
           {| status_code := 429; content := ""; json_body := None |}
           {| status_code := 429; content := ""; json_body := None |}
           {| status_code := 200; content := "AAAA"; json_body := None |}
           {| page := ScriptMissing; api := GetRaises;
              images := [(urlA, [status_response 429; ok_response "AAAA"])] |}
           {| page := ScriptMissing; api := GetRaises;
              images := [(urlA, [ok_response "AAAA"])] |}).
  - lia.
  - unfold Qle. simpl. lia.
  - reflexivity.
  - reflexivity.
  - reflexivity.
  - reflexivity.
  - reflexivity.
  - reflexivity.
Defined.

(** C2 on a page without the script element and on a page with pins. *)
Lemma fallback_runs_iff_primary_empty_witness :
  (let run := @fetch_image_urls scripted (scripted_upstream true)
                "gatti" 2 a_session (start api_only_upstream) in
   api_requests (trace (snd run)) = 1%nat)
  /\ (let run := @fetch_image_urls scripted (scripted_upstream true)
                   "gatti" 2 a_session (start rendered_upstream) in
      api_requests (trace (snd run)) = 0%nat
      /\ fst run = Returns [JStr urlA; JStr urlB]).
Proof.
  split.
  - apply (proj1 (@fallback_runs_iff_primary_empty scripted
                    (scripted_upstream true) "gatti" 2 a_session
                    (start api_only_upstream))).
    reflexivity.
  - apply (proj2 (@fallback_runs_iff_primary_empty scripted
                    (scripted_upstream true) "gatti" 2 a_session
                    (start rendered_upstream))).
    vm_compute. discriminate.
Defined.

(** C1 as amended, with limit -1, on a page with pins and on a page without the script element. *)
Lemma fetch_image_urls_nonpositive_limit_witness :
  -1 <= 0
  /\ (let run := @fetch_image_urls scripted (scripted_upstream true)
                   "gatti" (-1) a_session (start rendered_upstream) in
      fst run = Returns [] /\ api_requests (trace (snd run)) = 0%nat)
  /\ (let run := @fetch_image_urls scripted (scripted_upstream true)
                   "gatti" (-1) a_session (start api_only_upstream) in
      api_requests (trace (snd run)) = 1%nat /\ fst run = Returns []).
Proof.
  split; [lia|]. split.
  - apply (proj1 (@fetch_image_urls_nonpositive_limit scripted
                    (scripted_upstream true) "gatti" (-1) a_session
                    (start rendered_upstream) ltac:(lia))).
    vm_compute. discriminate.
  - destruct (proj2 (@fetch_image_urls_nonpositive_limit scripted
                       (scripted_upstream true) "gatti" (-1) a_session
                       (start api_only_upstream) ltac:(lia)) eq_refl)
      as (Hcount & _ & Hclean).
    split; [exact Hcount|].
    apply (Hclean (json_response (api_payload mixed_entries))
             api_only_upstream); [reflexivity|].
    left. reflexivity.
Defined.


(** * Further properties of the download manager *)

Lemma rate_limited_not_ok r : rate_limited r = true -> (status_code r =? 200) = false.
Proof.
  unfold rate_limited. intros Hr. apply orb_true_iff in Hr.
  destruct Hr as [Hr|Hr]; apply Z.eqb_eq in Hr; rewrite Hr; reflexivity.
Qed.

Lemma throttle_trace_gets url backoff_factor rs : forall attempt,
  length (List.filter is_get (throttle_trace url backoff_factor attempt rs))
  = length rs
  /\ length (List.filter is_sleep (throttle_trace url backoff_factor attempt rs))
     = length rs
  /\ written (throttle_trace url backoff_factor attempt rs) = [].
Proof.
  induction rs as [|r rs IH]; intros attempt; [repeat split|].
  destruct (IH (attempt + 1)) as (Hg & Hs & Hw).
  cbn. rewrite Hg, Hs. repeat split. exact Hw.
Qed.

Section Retry_facts.
Context {W : Type} `{Upstream W}.

(** A run of rate-limit answers uses up as many iterations of the attempt
    loop as it has answers and adds its GETs and sleeps to the trace. *)
Lemma download_attempts_throttled (url : json) (dest_path : string)
    (session : Session) (backoff_factor : Q) (w w1 : W) (rs : list response) :
  throttled session url w rs w1 ->
  (0 <= backoff_factor)%Q ->
  forall (n : nat) (attempt : Z) fs ds tr,
    attempt + Z.of_nat (length rs) <= 1024 ->
    download_attempts (length rs + n) attempt url dest_path session
      backoff_factor (mkState w fs ds tr)
    = download_attempts n (attempt + Z.of_nat (length rs)) url dest_path
        session backoff_factor
        (mkState w1 fs ds (tr ++ throttle_trace url backoff_factor attempt rs)).
Proof.
  intros Hrun Hbf.
  induction Hrun as [w|w r w1 rs w' Hget Hlim _ IH];
    intros n attempt fs ds tr Hmax.
  - cbn. rewrite Z.add_0_r, app_nil_r. reflexivity.
  - cbn [length] in Hmax.
    cbn [length Nat.add download_attempts world]. rewrite Hget.
    rewrite (rate_limited_not_ok r Hlim).
    unfold rate_limited in Hlim. rewrite Hlim.
    rewrite (backoff_delay_computed backoff_factor attempt) by lia.
    unfold time_sleep, record. cbn [world files dirs trace].
    rewrite (backoff_delay_accepted backoff_factor attempt Hbf).
    rewrite IH by lia. cbn [throttle_trace].
    replace (attempt + 1 + Z.of_nat (length rs))
      with (attempt + Z.of_nat (S (length rs))) by lia.
    rewrite <- !app_assoc. reflexivity.
Qed.

(** X1: When every attempt allowed is answered by 403 or 429, [download_image]
    returns [False] after [max_retries] GETs and as many sleeps: it sleeps
    after the last attempt too, and writes nothing.  This for a backoff
    factor that is not negative, at most 1024 attempts and sleeps within
    the range of [time.sleep]. *)
Theorem download_image_exhausts_attempts
    (url : json) (dest_path : string) (session : Session)
    (max_retries : Z) (backoff_factor : Q) (st : state W)
    (rs : list response) (w' : W) :
  throttled session url (world st) rs w' ->
  Z.of_nat (length rs) = max_retries ->
  (0 <= backoff_factor)%Q ->
  max_retries <= 1024 ->
  sleeps_within_range backoff_factor max_retries ->
  download_image url dest_path session max_retries backoff_factor st
  = (Returns false,
     mkState w' (files st) (dirs st)
       (trace st ++ throttle_trace url backoff_factor 0 rs))
  /\ length (List.filter is_get (throttle_trace url backoff_factor 0 rs))
     = Z.to_nat max_retries
  /\ length (List.filter is_sleep (throttle_trace url backoff_factor 0 rs))
     = Z.to_nat max_retries.
Proof.
  intros Hrun Hlen Hbf Hmax _.
  destruct (throttle_trace_gets url backoff_factor rs 0) as (Hg & Hs & _).
  rewrite Hg, Hs. split; [|split; lia].
  unfold download_image. destruct st as [w fs ds tr]. cbn [world] in Hrun.
  replace (Z.to_nat max_retries) with (length rs + 0)%nat by lia.
  rewrite (download_attempts_throttled url dest_path session backoff_factor
             w w' rs Hrun Hbf) by lia.
  reflexivity.
Qed.

(** X2: Up to 1024 answers 403 or 429 followed by a 200, all within the
    attempts allowed: [download_image] returns [True], having slept once
    after each rate-limit answer with the doubling delay, and writes the
    body of the 200 answer to [dest_path].  This for a backoff factor that
    is not negative and sleeps within the range of [time.sleep]. *)
Theorem download_image_succeeds_after_throttling
    (url : json) (dest_path : string) (session : Session)
    (max_retries : Z) (backoff_factor : Q) (st : state W)
    (rs : list response) (w1 w2 : W) (r : response) :
  throttled session url (world st) rs w1 ->
  image_get w1 session url = (Response r, w2) ->
  status_code r = 200 ->
  Z.of_nat (length rs) < max_retries ->
  (0 <= backoff_factor)%Q ->
  Z.of_nat (length rs) <= 1024 ->
  sleeps_within_range backoff_factor (Z.of_nat (length rs)) ->
  download_image url dest_path session max_retries backoff_factor st
  = (Returns true,
     mkState w2 (<[dest_path := content r]> (files st)) (dirs st)
       (trace st ++ throttle_trace url backoff_factor 0 rs
        ++ [EvGet url (Response r); EvWrite dest_path (content r)])).
Proof.
  intros Hrun Hget Hok Hlen Hbf Hmax _.
  unfold download_image. destruct st as [w fs ds tr]. cbn [world] in Hrun.
  replace (Z.to_nat max_retries)
    with (length rs + S (Z.to_nat max_retries - S (length rs)))%nat by lia.
  rewrite (download_attempts_throttled url dest_path session backoff_factor
             w w1 rs Hrun Hbf) by lia.
  cbn [download_attempts world]. rewrite Hget, Hok.
  change (200 =? 200) with true. cbv iota.
  unfold write_file, record. cbn [world files dirs trace].
  rewrite <- !app_assoc. reflexivity.
Qed.

(** X3: Up to 1024 answers 403 or 429 followed by a broken connection or
    by a status other than 200, 403 and 429: [download_image] returns
    [False] at that answer, without a further request or sleep, and
    writes nothing.  This for a backoff factor that is not negative and
    sleeps within the range of [time.sleep]. *)
Theorem download_image_gives_up
    (url : json) (dest_path : string) (session : Session)
    (max_retries : Z) (backoff_factor : Q) (st : state W)
    (rs : list response) (w1 w2 : W) (res : get_outcome) :
  throttled session url (world st) rs w1 ->
  image_get w1 session url = (res, w2) ->
  gives_up res = true ->
  Z.of_nat (length rs) < max_retries ->
  (0 <= backoff_factor)%Q ->
  Z.of_nat (length rs) <= 1024 ->
  sleeps_within_range backoff_factor (Z.of_nat (length rs)) ->
  download_image url dest_path session max_retries backoff_factor st
  = (Returns false,
     mkState w2 (files st) (dirs st)
       (trace st ++ throttle_trace url backoff_factor 0 rs
        ++ [EvGet url res])).
Proof.
  intros Hrun Hget Hgive Hlen Hbf Hmax _.
  unfold download_image. destruct st as [w fs ds tr]. cbn [world] in Hrun.
  replace (Z.to_nat max_retries)
    with (length rs + S (Z.to_nat max_retries - S (length rs)))%nat by lia.
  rewrite (download_attempts_throttled url dest_path session backoff_factor
             w w1 rs Hrun Hbf) by lia.
  cbn [download_attempts world]. rewrite Hget.
  unfold record. cbn [world files dirs trace].
  destruct res as [|r]; cbn [gives_up] in Hgive.
  - rewrite <- !app_assoc. reflexivity.
  - apply andb_true_iff in Hgive. destruct Hgive as [H200 Hlim].
    apply negb_true_iff in H200, Hlim. unfold rate_limited in Hlim.
    rewrite H200, Hlim. rewrite <- !app_assoc. reflexivity.
Qed.

(** X4: With a negative backoff factor, of no less than -2^33, the first
    403 or 429 makes [download_image] raise the [ValueError] of
    [time.sleep]: there is no second request and nothing is written. *)
Theorem download_image_negative_backoff_raises
    (url : json) (dest_path : string) (session : Session)
    (max_retries : Z) (backoff_factor : Q) (st : state W)
    (r : response) (w1 : W) :
  0 < max_retries ->
  (- inject_Z (2 ^ 33) <= backoff_factor)%Q ->
  (backoff_factor < 0)%Q ->
  image_get (world st) session url = (Response r, w1) ->
  rate_limited r = true ->
  download_image url dest_path session max_retries backoff_factor st
  = (Raises ValueError,
     mkState w1 (files st) (dirs st) (trace st ++ [EvGet url (Response r)])).
Proof.
  intros Hpos _ Hneg Hget Hlim. unfold download_image.
  destruct (Z.to_nat max_retries) as [|n] eqn:En; [lia|].
  cbn [download_attempts]. rewrite Hget, (rate_limited_not_ok r Hlim).
  unfold rate_limited in Hlim. rewrite Hlim.
  rewrite (backoff_delay_computed backoff_factor 0) by lia.
  unfold time_sleep.
  destruct (Qle_bool 0 (backoff_factor * inject_Z (2 ^ 0))) eqn:Esleep;
    [|reflexivity].
  exfalso. apply Qle_bool_iff in Esleep.
  change (inject_Z (2 ^ 0)) with 1%Q in Esleep.
  rewrite Qmult_1_r in Esleep.
  exact (Qlt_not_le _ _ Hneg Esleep).
Qed.

End Retry_facts.

Section Download_effects.
Context {W : Type} `{Upstream W}.

(** What the attempt loop may do to the trace and to the disk. *)
Lemma download_attempts_effects (url : json) (dest_path : string)
    (session : Session) (backoff_factor : Q) (n : nat) :
  forall (attempt : Z) (st : state W),
  exists new : list event,
    trace (snd (download_attempts n attempt url dest_path session
                  backoff_factor st)) = trace st ++ new
    /\ dirs (snd (download_attempts n attempt url dest_path session
                   backoff_factor st)) = dirs st
    /\ (length (List.filter is_get new) <= n)%nat
    /\ (length (List.filter is_sleep new) <= length (List.filter is_get new))%nat
    /\ (if succeeded (fst (download_attempts n attempt url dest_path session
                             backoff_factor st))
        then exists r, In (EvGet url (Response r)) new
                       /\ status_code r = 200
                       /\ files (snd (download_attempts n attempt url dest_path
                                        session backoff_factor st))
                          = <[dest_path := content r]> (files st)
        else files (snd (download_attempts n attempt url dest_path session
                           backoff_factor st)) = files st).
Proof.
  induction n as [|n IH]; intros attempt st.
  - exists []. cbn. rewrite app_nil_r. repeat split; lia.
  - cbn [download_attempts].
    destruct (image_get (world st) session url) as [res w1] eqn:Hget.
    destruct res as [|resp].
    + exists [EvGet url GetRaises]. cbn. repeat split; lia.
    + destruct (status_code resp =? 200) eqn:E200.
      * exists [EvGet url (Response resp); EvWrite dest_path (content resp)].
        cbn. rewrite <- app_assoc. repeat split; try lia.
        exists resp. split; [left; reflexivity|].
        split; [apply Z.eqb_eq; exact E200|reflexivity].
      * destruct ((status_code resp =? 403) || (status_code resp =? 429)).
        -- destruct (backoff_delay backoff_factor attempt) as [backoff|e].
           ++ unfold time_sleep.
              destruct (Qle_bool 0 backoff).
              ** unfold record. cbn [world files dirs trace].
                 match goal with
                 | |- context [download_attempts n ?a _ _ _ _ ?s] =>
                     destruct (IH a s) as (new & Htr & Hds & Hg & Hs & Hfiles);
                     set (run := download_attempts n a url dest_path session
                                   backoff_factor s) in *
                 end.
                 exists (EvGet url (Response resp) :: EvSleep backoff :: new).
                 cbn [trace dirs files] in Htr, Hds, Hfiles.
                 rewrite Htr, Hds, <- !app_assoc.
                 split; [reflexivity|]. split; [reflexivity|].
                 split; [cbn; lia|]. split; [cbn; lia|].
                 destruct (succeeded (fst run)).
                 --- destruct Hfiles as (r & Hin & Hst & Hf).
                     exists r. split; [right; right; exact Hin|].
                     split; [exact Hst|exact Hf].
                 --- exact Hfiles.
              ** exists [EvGet url (Response resp)]. cbn. repeat split; lia.
           ++ exists [EvGet url (Response resp)]. cbn. repeat split; lia.
        -- exists [EvGet url (Response resp)]. cbn. repeat split; lia.
Qed.

(** X5: [download_image] issues at most [max_retries] requests (none when
    [max_retries] is not positive), never sleeps more often than it
    requests, and leaves the set of directories alone. *)
Theorem download_image_bounded_effort
    (url : json) (dest_path : string) (session : Session)
    (max_retries : Z) (backoff_factor : Q) (st : state W) :
  let run :=
    download_image url dest_path session max_retries backoff_factor st in
  exists new : list event,
    trace (snd run) = trace st ++ new
    /\ Z.of_nat (length (List.filter is_get new)) <= Z.max 0 max_retries
    /\ (length (List.filter is_sleep new) <= length (List.filter is_get new))%nat
    /\ dirs (snd run) = dirs st.
Proof.
  cbv zeta. unfold download_image.
  destruct (download_attempts_effects url dest_path session backoff_factor
              (Z.to_nat max_retries) 0 st) as (new & Htr & Hds & Hg & Hs & _).
  exists new. repeat split; auto. lia.
Qed.

(** X6: [download_image] touches no file but [dest_path]; it returns [True]
    exactly when it has written there the body of a 200 answer to its
    request, and in every other case the disk is as it was. *)
Theorem download_image_disk_effect
    (url : json) (dest_path : string) (session : Session)
    (max_retries : Z) (backoff_factor : Q) (st : state W) :
  let run :=
    download_image url dest_path session max_retries backoff_factor st in
  (forall p, p <> dest_path -> files (snd run) !! p = files st !! p)
  /\ (fst run = Returns true ->
      exists new r,
        trace (snd run) = trace st ++ new
        /\ In (EvGet url (Response r)) new
        /\ status_code r = 200
        /\ files (snd run) !! dest_path = Some (content r))
  /\ (fst run <> Returns true -> files (snd run) = files st).
Proof.
  cbv zeta. unfold download_image.
  destruct (download_attempts_effects url dest_path session backoff_factor
              (Z.to_nat max_retries) 0 st) as (new & Htr & _ & _ & _ & Hfiles).
  destruct (fst (download_attempts _ _ _ _ _ _ _)) as [[|]|e] eqn:Eres;
    cbn [succeeded] in Hfiles.
  - destruct Hfiles as (r & Hin & Hst & Hf). split; [|split].
    + intros p Hp. rewrite Hf. apply lookup_insert_ne. congruence.
    + intros _. exists new, r. repeat split; auto.
      rewrite Hf. apply lookup_insert_eq.
    + congruence.
  - split; [|split]; [intros p _; rewrite Hfiles; reflexivity|discriminate|auto].
  - split; [|split]; [intros p _; rewrite Hfiles; reflexivity|discriminate|auto].
Qed.

End Download_effects.

(** ** File names *)

Lemma string_length_app (s t : string) :
  String.length (s +:+ t) = (String.length s + String.length t)%nat.
Proof.
  induction s as [|c s IH]; [reflexivity|].
  change (String c s +:+ t) with (String c (s +:+ t)).
  cbn [String.length]. rewrite IH. reflexivity.
Qed.

Lemma string_app_inj_r (t : string) : forall s1 s2 : string,
  s1 +:+ t = s2 +:+ t -> s1 = s2.
Proof.
  induction s1 as [|a s1 IH]; intros [|b s2] Heq.
  - reflexivity.
  - apply (f_equal String.length) in Heq.
    rewrite !string_length_app in Heq. cbn [String.length] in Heq. lia.
  - apply (f_equal String.length) in Heq.
    rewrite !string_length_app in Heq. cbn [String.length] in Heq. lia.
  - change (String a (s1 +:+ t) = String b (s2 +:+ t)) in Heq.
    injection Heq as -> Heq. f_equal. apply IH. exact Heq.
Qed.

Lemma to_uint_not_nil (n : nat) : Nat.to_uint n <> Decimal.Nil.
Proof.
  intros E. pose proof (DecimalNat.Unsigned.of_to n) as Hn.
  rewrite E in Hn. cbn in Hn. subst n. discriminate E.
Qed.

(** [f"image_{idx}.jpg"] tells the index. *)
Lemma image_name_inj (i j : nat) : image_name i = image_name j -> i = j.
Proof.
  unfold image_name. intros Heq.
  apply (inj (String.app "image_")) in Heq.
  apply string_app_inj_r in Heq.
  apply DecimalNat.Unsigned.to_uint_inj.
  pose proof (NilZero.usu _ (to_uint_not_nil i)) as Hi.
  pose proof (NilZero.usu _ (to_uint_not_nil j)) as Hj.
  rewrite Heq in Hi. congruence.
Qed.

Lemma os_path_join_inj (dir a b : string) :
  os_path_join dir a = os_path_join dir b -> a = b.
Proof.
  unfold os_path_join.
  destruct (String.eqb dir EmptyString); [auto|].
  destruct (String.eqb _ "/"); intros Heq.
  - apply (inj (String.app dir)) in Heq. exact Heq.
  - apply (inj (String.app dir)) in Heq.
    apply (inj (String.app "/")) in Heq. exact Heq.
Qed.

(** ** Replaying writes *)

Lemma apply_writes_untouched ws : forall (fs : gmap string string) p,
  Forall (fun w => w.1 <> p) ws -> apply_writes ws fs !! p = fs !! p.
Proof.
  induction ws as [|[q d] ws IH]; intros fs p Hall; [reflexivity|].
  change (apply_writes ((q, d) :: ws) fs) with (apply_writes ws (<[q:=d]> fs)).
  apply Forall_cons in Hall. destruct Hall as [Hq Hall].
  rewrite IH by exact Hall. apply lookup_insert_ne. exact Hq.
Qed.

Lemma apply_writes_size ws : forall fs : gmap string string,
  NoDup (List.map fst ws) ->
  Forall (fun w => fs !! w.1 = None) ws ->
  size (apply_writes ws fs) = (size fs + length ws)%nat.
Proof.
  induction ws as [|[q d] ws IH]; intros fs Hnd Hfresh.
  - cbn. lia.
  - change (apply_writes ((q, d) :: ws) fs) with (apply_writes ws (<[q:=d]> fs)).
    cbn [List.map fst] in Hnd. apply NoDup_cons in Hnd. destruct Hnd as [Hq Hnd].
    apply Forall_cons in Hfresh. destruct Hfresh as [Hqf Hfresh].
    rewrite IH.
    + rewrite map_size_insert_None by exact Hqf. cbn [length]. lia.
    + exact Hnd.
    + apply Forall_forall. intros [k v] Hin. cbn.
      rewrite lookup_insert_ne.
      * rewrite Forall_forall in Hfresh. exact (Hfresh (k, v) Hin).
      * intros ->. apply Hq. apply list_elem_of_In.
        apply (in_map fst ws (k, v)). apply list_elem_of_In. exact Hin.
Qed.

Section Download_images_facts.
Context {W : Type} `{Upstream W}.

(** X7: Among the files, [download_images] touches nothing but the
    positional names [image_1.jpg] ... [image_n.jpg] in the output
    directory, [n] being the number of urls: every other path holds after
    the run what it held before, however the run ends. *)
Theorem download_images_touches_only_positional_names
    (urls : list json) (output_dir : string) (session : Session)
    (max_retries : Z) (backoff_factor : Q) (st : state W) (p : string) :
  (forall i : nat, (1 <= i <= length urls)%nat ->
                   p <> os_path_join output_dir (image_name i)) ->
  let run :=
    download_images urls output_dir session max_retries backoff_factor st in
  files (snd run) !! p = files st !! p.
Proof.
  intros Hp. cbv zeta. destruct st as [w fs ds tr].
  destruct (download_images_shape urls output_dir session max_retries
              backoff_factor w)
    as (res & w' & new & made & Hrun & _ & Hpos & _).
  rewrite Hrun. cbn [snd files].
  apply apply_writes_untouched.
  eapply Forall_impl; [exact Hpos|].
  intros q (i & Hi & Hq) Heq. apply (Hp i Hi). congruence.
Qed.

(** The writes of the loop over the urls go to pairwise distinct files. *)
Lemma download_each_fresh_files (output_dir : string) (session : Session)
    (max_retries : Z) (backoff_factor : Q) (urls : list json) :
  forall (idx : nat) (w : W),
  exists (res : outcome Z) (w' : W) (new : list event),
    (forall count fs ds tr,
       download_each urls idx count output_dir session max_retries
         backoff_factor (mkState w fs ds tr)
       = (Z.add count <$> res,
          mkState w' (apply_writes (written new) fs) ds (tr ++ new)))
    /\ NoDup (List.map fst (written new))
    /\ Forall (fun p => exists i : nat,
                 (idx <= i < idx + length urls)%nat /\
                 p.1 = os_path_join output_dir (image_name i))
              (written new)
    /\ (forall c, res = Returns c -> c = Z.of_nat (length (written new))).
Proof.
  induction urls as [|url rest IH]; intros idx w.
  - exists (Returns 0), w, []. split; [|split; [|split]].
    + intros count fs ds tr. cbn. rewrite Z.add_0_r, app_nil_r. reflexivity.
    + constructor.
    + constructor.
    + intros c [= <-]. reflexivity.
  - destruct (download_attempts_shape url
                (os_path_join output_dir (image_name idx)) session
                backoff_factor (Z.to_nat max_retries) 0 w)
      as (res1 & w1 & new1 & Hrun1 & Hw1 & _ & _).
    destruct res1 as [ok|e].
    + destruct (IH (S idx) w1) as (res2 & w' & new2 & Hrun2 & Hnd & Hpos & Hc).
      exists (Z.add (if ok then 1 else 0) <$> res2), w', (new1 ++ new2).
      assert (Hpos' : Forall (fun p => exists i : nat,
                 (idx <= i < idx + length (url :: rest))%nat /\
                 p.1 = os_path_join output_dir (image_name i))
              (written new2)).
      { eapply Forall_impl; [exact Hpos|].
        intros p (i & Hi & Hp). exists i.
        split; [cbn [length]; lia|exact Hp]. }
      split; [|split; [|split]].
      * intros count fs ds tr. cbn [download_each]. unfold download_image.
        rewrite Hrun1, Hrun2, written_app, apply_writes_app, app_assoc.
        f_equal. destruct res2 as [c|e]; [|reflexivity].
        cbn. f_equal. destruct ok; lia.
      * rewrite written_app. destruct ok; cbn [succeeded] in Hw1.
        -- destruct Hw1 as [d ->]. cbn [app List.map fst].
           apply NoDup_cons. split; [|exact Hnd].
           intros Hin. apply list_elem_of_In, in_map_iff in Hin.
           destruct Hin as (q & Hq & Hin).
           rewrite Forall_forall in Hpos.
           destruct (Hpos q) as (i & Hi & Hqi); [apply list_elem_of_In; exact Hin|].
           rewrite Hqi in Hq. apply os_path_join_inj, image_name_inj in Hq.
           lia.
        -- rewrite Hw1. exact Hnd.
      * rewrite written_app. apply Forall_app. split; [|exact Hpos'].
        destruct ok; cbn [succeeded] in Hw1;
          [destruct Hw1 as [d ->]|rewrite Hw1]; constructor; [|constructor].
        exists idx. split; [cbn [length]; lia|reflexivity].
      * intros c Heq. destruct res2 as [c2|e]; [|discriminate].
        cbn in Heq. injection Heq as <-. rewrite (Hc c2 eq_refl).
        rewrite written_app, length_app.
        destruct ok; cbn [succeeded] in Hw1;
          [destruct Hw1 as [d ->]|rewrite Hw1]; cbn [length]; lia.
    + exists (Raises e), w1, new1. cbn [succeeded] in Hw1.
      split; [|split; [|split]].
      * intros count fs ds tr. cbn [download_each]. unfold download_image.
        rewrite Hrun1. reflexivity.
      * rewrite Hw1. constructor.
      * rewrite Hw1. constructor.
      * discriminate.
Qed.

(** X8: In an output directory that holds no [image_i.jpg] yet, every
    successful download makes a file of its own: the number of files grows
    by the count [download_images] returns. *)
Theorem download_images_one_file_per_success
    (urls : list json) (output_dir : string) (session : Session)
    (max_retries : Z) (backoff_factor : Q) (st : state W) (count : Z) :
  (forall i : nat, files st !! os_path_join output_dir (image_name i) = None) ->
  fst (download_images urls output_dir session max_retries backoff_factor st)
    = Returns count ->
  Z.of_nat (size (files (snd (download_images urls output_dir session
                                max_retries backoff_factor st))))
  = Z.of_nat (size (files st)) + count.
Proof.
  intros Hfresh. destruct st as [w fs ds tr]. cbn [files] in Hfresh.
  unfold download_images, makedirs.
  destruct (String.eqb output_dir EmptyString); [discriminate|].
  cbn [world files dirs trace].
  destruct (download_each_fresh_files output_dir session max_retries
              backoff_factor urls 1%nat w)
    as (res & w' & new & Hrun & Hnd & Hpos & Hc).
  rewrite Hrun. cbn [fst snd files]. intros Hres.
  destruct res as [c|e]; [|discriminate]. cbn in Hres.
  injection Hres as <-. rewrite Z.add_0_l, (Hc c eq_refl).
  rewrite apply_writes_size; [lia|exact Hnd|].
  eapply Forall_impl; [exact Hpos|].
  intros q (i & _ & ->). apply Hfresh.
Qed.

(** The requests of the loop over the urls. *)
Lemma download_each_requests (output_dir : string) (session : Session)
    (max_retries : Z) (backoff_factor : Q) (urls : list json) :
  forall (idx : nat) (count : Z) (st : state W),
  exists new : list event,
    trace (snd (download_each urls idx count output_dir session max_retries
                  backoff_factor st)) = trace st ++ new
    /\ (length (List.filter is_get new)
        <= length urls * Z.to_nat max_retries)%nat
    /\ (length (List.filter is_sleep new)
        <= length (List.filter is_get new))%nat.
Proof.
  induction urls as [|url rest IH]; intros idx count st.
  - exists []. cbn. rewrite app_nil_r. repeat split; lia.
  - cbn [download_each]. unfold download_image.
    destruct (download_attempts_effects url
                (os_path_join output_dir (image_name idx)) session
                backoff_factor (Z.to_nat max_retries) 0 st)
      as (new1 & Htr1 & _ & Hg1 & Hs1 & _).
    destruct (download_attempts _ _ _ _ _ _ _) as [[ok|e] st1].
    + cbn [snd] in Htr1.
      destruct (IH (S idx) (if ok then count + 1 else count) st1)
        as (new2 & Htr2 & Hg2 & Hs2).
      exists (new1 ++ new2). rewrite Htr2, Htr1, <- app_assoc.
      rewrite !filter_length_app. cbn [length]. repeat split; lia.
    + cbn [snd] in *. exists new1. cbn [length]. repeat split; auto. lia.
Qed.

(** X9: [download_images] issues at most [max_retries] requests per url, and
    none at all when [max_retries] is not positive; it never sleeps more
    often than it requests. *)
Theorem download_images_bounded_effort
    (urls : list json) (output_dir : string) (session : Session)
    (max_retries : Z) (backoff_factor : Q) (st : state W) :
  let run :=
    download_images urls output_dir session max_retries backoff_factor st in
  exists new : list event,
    trace (snd run) = trace st ++ new
    /\ Z.of_nat (length (List.filter is_get new))
       <= Z.of_nat (length urls) * Z.max 0 max_retries
    /\ (length (List.filter is_sleep new)
        <= length (List.filter is_get new))%nat.
Proof.
  cbv zeta. unfold download_images, makedirs.
  destruct (String.eqb output_dir EmptyString).
  - exists []. cbn. rewrite app_nil_r. repeat split; lia.
  - match goal with
    | |- context [download_each urls 1 0 _ _ _ _ ?s] =>
        destruct (download_each_requests output_dir session max_retries
                    backoff_factor urls 1%nat 0 s) as (new & Htr & Hg & Hs)
    end.
    exists (EvMakedirs output_dir :: new). rewrite Htr.
    cbn [trace]. rewrite <- app_assoc.
    split; [reflexivity|]. cbn [List.filter is_get is_sleep app].
    split; [nia|exact Hs].
Qed.

(** X10: The loop over the urls composes: a list [urls1 ++ urls2] is handled
    as [urls1], then [urls2] with the indices and the count carried on; an
    exception in the first part ends the run. *)
Theorem download_images_app
    (urls1 urls2 : list json) (output_dir : string) (session : Session)
    (max_retries : Z) (backoff_factor : Q) (st : state W) :
  download_images (urls1 ++ urls2) output_dir session max_retries
    backoff_factor st
  = match download_images urls1 output_dir session max_retries
            backoff_factor st with
    | (Returns count, st1) =>
        download_each urls2 (S (length urls1)) count output_dir session
          max_retries backoff_factor st1
    | (Raises e, st1) => (Raises e, st1)
    end.
Proof.
  unfold download_images.
  destruct (makedirs output_dir st) as [st0|e]; [|reflexivity].
  rewrite download_each_app. reflexivity.
Qed.

End Download_images_facts.

(** * Further properties of the resolver *)

Lemma orig_url_raises pin e : orig_url pin = Raises e -> e = AttributeError.
Proof.
  unfold orig_url. destruct pin; cbn; try congruence.
  destruct (dict_lookup "images" items) as [[]|]; cbn; try congruence;
    match goal with
    | |- context [dict_lookup "orig" ?l] =>
        destruct (dict_lookup "orig" l) as [[]|]; cbn; congruence
    end.
Qed.


Lemma collect_truthy entries limit : forall urls,
  Forall (fun u => truthy u = true) urls ->
  Forall (fun u => truthy u = true) (fst (collect entries limit urls)).
Proof.
  induction entries as [|pin rest IH]; intros urls Hall; cbn [collect].
  - exact Hall.
  - destruct (orig_url pin) as [v|x]; [|exact Hall].
    destruct (truthy v) eqn:Ev; [|apply IH; exact Hall].
    assert (Forall (fun u => truthy u = true) (urls ++ [v])).
    { apply Forall_app. split; [exact Hall|]. constructor; [exact Ev|constructor]. }
    destruct (_ >=? _); [assumption|apply IH; assumption].
Qed.

Lemma py_slice_to_Forall {A} (P : A -> Prop) (l : list A) limit :
  Forall P l -> Forall P (py_slice_to l limit).
Proof. intros Hall. unfold py_slice_to. destruct (0 <=? limit); apply Forall_take, Hall. Qed.

Lemma py_slice_to_length {A} (l : list A) limit :
  0 <= limit -> (length (py_slice_to l limit) <= Z.to_nat limit)%nat.
Proof.
  intros Hle. unfold py_slice_to. destruct (Z.leb_spec 0 limit); [|lia].
  rewrite length_take. lia.
Qed.

Lemma parse_pws_truthy page limit :
  Forall (fun u => truthy u = true) (parse_pws page limit []).
Proof.
  unfold parse_pws. destruct page as [| |text [data|]]; try constructor.
  - destruct (negb _); [|constructor].
    destruct (pins ← pws_pins data; py_values pins); [|constructor].
    apply collect_truthy. constructor.
  - destruct (negb _); constructor.
Qed.

Lemma api_walk_truthy res limit :
  Forall (fun u => truthy u = true) (fst (api_walk res limit [])).
Proof.
  unfold api_walk. destruct res as [|r]; [constructor|].
  destruct (raise_for_status r); [constructor|].
  destruct (json_body r) as [payload|]; [|constructor].
  destruct (results ← api_results payload; py_iter results); [|constructor].
  apply collect_truthy. constructor.
Qed.



Section Resolver_more.
Context {W : Type} `{Upstream W}.

(** The two ways the fallback stage ends. *)
Lemma fallback_stage_cases query limit session urls (st : state W) :
  let res := fst (api_get (world st) session
                    {| api_query := query; api_scope := "pins";
                       api_page_size := Z.max 25 limit |}) in
  (fst (fallback_stage query limit session urls st)
     = Returns (py_slice_to (fst (api_walk res limit urls)) limit)
   /\ (snd (api_walk res limit urls) = None
       \/ snd (api_walk res limit urls) = Some RequestException))
  \/ (exists e, fst (fallback_stage query limit session urls st) = Raises e
                /\ snd (api_walk res limit urls) = Some e
                /\ e <> RequestException).
Proof.
  cbv zeta. unfold fallback_stage.
  destruct (api_get (world st) session _) as [res w1]. cbn [fst].
  destruct (api_walk res limit urls) as [urls1 [[| | | | |]|]]; cbn [fst snd].
  - left. auto.
  - right. exists AttributeError. repeat split. discriminate.
  - right. exists TypeError. repeat split. discriminate.
  - right. exists ValueError. repeat split. discriminate.
  - right. exists OverflowError. repeat split. discriminate.
  - right. exists FileNotFoundError. repeat split. discriminate.
  - left. auto.
Qed.

Lemma primary_yield_truthy query limit session (st : state W) :
  Forall (fun u => truthy u = true) (primary_yield query limit session st).
Proof.
  unfold primary_yield, primary_stage.
  destruct HTMLSession_available; [|constructor].
  destruct (render_search (world st) session query) as [page w1].
  apply parse_pws_truthy.
Qed.

(** With a limit that is not positive the resolver never returns a url. *)
Lemma fetch_image_urls_nonpositive_limit_aux query limit session (st : state W) :
  limit <= 0 ->
  fst (fetch_image_urls query limit session st) = Returns []
  \/ exists e, fst (fetch_image_urls query limit session st) = Raises e
               /\ e <> RequestException.
Proof.
  intros Hle. rewrite fetch_image_urls_stages.
  destruct (nonempty _) eqn:Hne; cbn [fst].
  - left. f_equal. unfold primary_yield, primary_stage.
    destruct HTMLSession_available; [|apply py_slice_to_nil].
    destruct (render_search (world st) session query) as [page w1].
    apply parse_pws_nonpositive. exact Hle.
  - apply fallback_stage_nonpositive. exact Hle.
Qed.

Lemma fetch_result_length query limit session (st : state W) urls :
  fst (fetch_image_urls query limit session st) = Returns urls ->
  (length urls <= Z.to_nat limit)%nat.
Proof.
  intros Hrun. destruct (Z.le_gt_cases limit 0) as [Hle|Hgt].
  - destruct (fetch_image_urls_nonpositive_limit_aux query limit session st Hle)
      as [Hnil|[e [He _]]]; [|congruence].
    rewrite Hnil in Hrun. injection Hrun as <-. cbn. lia.
  - rewrite fetch_image_urls_stages in Hrun.
    destruct (nonempty _); cbn [fst] in Hrun.
    + injection Hrun as <-. apply py_slice_to_length. lia.
    + destruct (fallback_stage_cases query limit session []
                  (after_primary query limit session st))
        as [[Hret _]|[e [He _]]]; [|congruence].
      rewrite Hret in Hrun. injection Hrun as <-.
      apply py_slice_to_length. lia.
Qed.

(** X12: Whatever the upstream delivers, a list returned by [fetch_image_urls]
    has at most [limit] elements (none for a limit that is not positive). *)
Theorem fetch_image_urls_length_bound query limit session (st : state W) urls :
  fst (fetch_image_urls query limit session st) = Returns urls ->
  Z.of_nat (length urls) <= Z.max 0 limit.
Proof. intros Hrun. apply fetch_result_length in Hrun. lia. Qed.

(** X13: Every element of a list returned by [fetch_image_urls] is a value
    Python takes for true: never [None], an empty string or zero. *)
Theorem fetch_image_urls_returns_truthy query limit session (st : state W) urls :
  fst (fetch_image_urls query limit session st) = Returns urls ->
  Forall (fun u => truthy u = true) urls.
Proof.
  rewrite fetch_image_urls_stages. destruct (nonempty _); cbn [fst].
  - intros [= <-]. apply py_slice_to_Forall, primary_yield_truthy.
  - destruct (fallback_stage_cases query limit session []
                (after_primary query limit session st))
      as [[Hret _]|[e [He _]]]; [|congruence].
    rewrite Hret. intros [= <-]. apply py_slice_to_Forall, api_walk_truthy.
Qed.

(** X14: Total failure gives the empty list: when the primary stage yields
    nothing and the fallback request ends in a broken connection, a 4xx or
    5xx status or a body that is not JSON, [fetch_image_urls] returns [[]]. *)
Theorem fetch_image_urls_total_failure query limit session (st : state W)
    (res : get_outcome) (w1 : W) :
  primary_yield query limit session st = [] ->
  api_get (world (after_primary query limit session st)) session
    {| api_query := query; api_scope := "pins";
       api_page_size := Z.max 25 limit |} = (res, w1) ->
  api_unusable res = true ->
  fst (fetch_image_urls query limit session st) = Returns [].
Proof.
  intros Hprim Hget Hbad. rewrite fetch_image_urls_stages, Hprim.
  cbn [nonempty]. unfold fallback_stage. rewrite Hget. unfold api_walk.
  destruct res as [|r]; cbn [api_unusable] in Hbad.
  - cbn. rewrite py_slice_to_nil. reflexivity.
  - destruct (raise_for_status r); [cbn; rewrite py_slice_to_nil; reflexivity|].
    destruct (json_body r); [discriminate|].
    cbn. rewrite py_slice_to_nil. reflexivity.
Qed.


(** X16: A pin that is not an object stops the primary stage, but the urls
    collected before it stand: they are returned and the fallback request
    is not sent. *)
Theorem primary_stage_keeps_urls_before_broken_pin
    query limit session (st : state W) text data items w1
    (good rest found : list json) (bad : json) (e : exn) :
  HTMLSession_available = true ->
  render_search (world st) session query = (Script text (Some data), w1) ->
  text <> EmptyString ->
  pws_pins data = Returns (JObj items) ->
  List.map snd items = good ++ bad :: rest ->
  discovered good found ->
  found <> [] ->
  Z.of_nat (length found) < limit ->
  orig_url bad = Raises e ->
  fst (fetch_image_urls query limit session st) = Returns found
  /\ api_requests (trace (snd (fetch_image_urls query limit session st)))
     = api_requests (trace st).
Proof.
  intros Hhtml Hrender Htext Hpins Hitems Hd Hne Hroom Hbad.
  assert (Hyield : primary_yield query limit session st = found).
  { unfold primary_yield, primary_stage. rewrite Hhtml, Hrender.
    cbn [fst parse_pws].
    destruct (String.eqb_spec text EmptyString); [contradiction|].
    cbn [negb]. rewrite Hpins. cbn. rewrite Hitems.
    rewrite (collect_app_room limit good found (bad :: rest) Hd [])
      by (cbn [length]; lia).
    cbn [app collect]. rewrite Hbad. reflexivity. }
  rewrite fetch_image_urls_stages, Hyield.
  destruct found as [|u found]; [contradiction|].
  cbn [nonempty fst snd]. rewrite after_primary_api_requests.
  split; [|reflexivity]. f_equal. unfold py_slice_to.
  destruct (Z.leb_spec 0 limit); [|lia].
  apply firstn_all2. lia.
Qed.

(** X17: In the fallback stage the same kind of entry is fatal: a result that
    is not an object, met before the limit is reached, makes
    [fetch_image_urls] raise [AttributeError], and the urls collected
    before it are lost. *)
Theorem fallback_stage_loses_urls_before_broken_result
    query limit session (st : state W) r payload w1
    (good rest found : list json) (bad : json) (e : exn) :
  primary_yield query limit session st = [] ->
  api_get (world (after_primary query limit session st)) session
    {| api_query := query; api_scope := "pins";
       api_page_size := Z.max 25 limit |} = (Response r, w1) ->
  raise_for_status r = false ->
  json_body r = Some payload ->
  api_results payload = Returns (JArr (good ++ bad :: rest)) ->
  discovered good found ->
  Z.of_nat (length found) < limit ->
  orig_url bad = Raises e ->
  fst (fetch_image_urls query limit session st) = Raises AttributeError.
Proof.
  intros Hprim Hget Hstatus Hjson Hres Hd Hroom Hbad.
  rewrite fetch_image_urls_stages, Hprim. cbn [nonempty].
  unfold fallback_stage. rewrite Hget. unfold api_walk.
  rewrite Hstatus, Hjson, Hres. cbn.
  rewrite (collect_app_room limit good found (bad :: rest) Hd [])
    by (cbn [length]; lia).
  cbn [app collect]. rewrite Hbad.
  rewrite (orig_url_raises bad e Hbad). reflexivity.
Qed.

(** X18: The walk stops at the limit: once the results have delivered [limit]
    urls, what follows in the payload is not looked at, so that not even a
    result that is not an object can do harm. *)
Theorem fallback_stage_ignores_results_after_limit
    query limit session (st : state W) r payload w1
    (good rest found : list json) :
  primary_yield query limit session st = [] ->
  api_get (world (after_primary query limit session st)) session
    {| api_query := query; api_scope := "pins";
       api_page_size := Z.max 25 limit |} = (Response r, w1) ->
  raise_for_status r = false ->
  json_body r = Some payload ->
  api_results payload = Returns (JArr (good ++ rest)) ->
  discovered good found ->
  found <> [] ->
  Z.of_nat (length found) = limit ->
  fst (fetch_image_urls query limit session st) = Returns found.
Proof.
  intros Hprim Hget Hstatus Hjson Hres Hd Hne Hfull.
  rewrite fetch_image_urls_stages, Hprim. cbn [nonempty].
  unfold fallback_stage. rewrite Hget. unfold api_walk.
  rewrite Hstatus, Hjson, Hres. cbn.
  rewrite (collect_app_full limit good found rest Hd Hne [])
    by (cbn [length]; lia).
  cbn. f_equal. unfold py_slice_to.
  destruct (Z.leb_spec 0 limit); [|lia].
  apply firstn_all2. lia.
Qed.

End Resolver_more.

(** * Further properties of the orchestrator *)

Section Orchestrator_more.
Context {W : Type} `{Upstream W}.

(** The resolver only talks to the search page and to the API: it leaves
    the disk alone and requests no image. *)
Lemma fetch_image_urls_frame query limit session (st : state W) :
  exists new : list event,
    trace (snd (fetch_image_urls query limit session st)) = trace st ++ new
    /\ files (snd (fetch_image_urls query limit session st)) = files st
    /\ dirs (snd (fetch_image_urls query limit session st)) = dirs st
    /\ List.filter is_get new = []
    /\ written new = [].
Proof.
  assert (Hfb : forall urls (s : state W),
             exists new : list event,
               trace (snd (fallback_stage query limit session urls s))
                 = trace s ++ new
               /\ files (snd (fallback_stage query limit session urls s)) = files s
               /\ dirs (snd (fallback_stage query limit session urls s)) = dirs s
               /\ List.filter is_get new = []
               /\ written new = []).
  { intros urls s. unfold fallback_stage.
    destruct (api_get (world s) session _) as [res w1].
    eexists [_].
    destruct (api_walk res limit urls) as [urls1 [[| | | | |]|]];
      cbn; repeat split; reflexivity. }
  unfold fetch_image_urls. destruct HTMLSession_available; [|apply Hfb].
  unfold primary_stage.
  destruct (render_search (world st) session query) as [page w1].
  destruct (nonempty _).
  - exists [EvRender query]. cbn. repeat split; reflexivity.
  - destruct (Hfb (parse_pws page limit [])
                (record (EvRender query) w1 st)) as (new & Htr & Hf & Hd & Hg & Hw).
    exists (EvRender query :: new). rewrite Htr, Hf, Hd. cbn.
    rewrite <- app_assoc. repeat split; assumption.
Qed.

(** X20: A run of [main] that does not end in exit code 0 leaves every file as
    it was. *)
Theorem main_writes_nothing_unless_success (args : Args) (st : state W) :
  fst (main args st) <> Returns 0 ->
  files (snd (main args st)) = files st.
Proof.
  unfold main.
  destruct (fetch_image_urls_frame (query args) (num_images args)
              (create_session (retries args) (backoff args) (ua args)
                 DEFAULT_ACCEPT_LANGUAGE) st) as (new0 & _ & Hf0 & _).
  destruct (fetch_image_urls _ _ _ _) as [[urls|x] st1]; cbn [fst snd] in *;
    [|auto].
  destruct urls as [|u urls]; cbn [nonempty negb fst snd]; [auto|].
  destruct st1 as [w1 fs1 ds1 tr1]. cbn [files] in Hf0.
  destruct (String.eqb_spec (output args) EmptyString) as [Hdir|Hdir].
  - unfold download_images, makedirs.
    destruct (String.eqb_spec (output args) EmptyString); [|contradiction].
    cbn [fst snd files]. intros _. exact Hf0.
  - destruct (download_images_shape (u :: urls) (output args)
                (create_session (retries args) (backoff args) (ua args)
                   DEFAULT_ACCEPT_LANGUAGE) 3 1%Q w1)
      as (res & w' & new & made & Hrun & Hcount & _ & Hret).
    destruct Hret as [c ->]; [unfold Qle; cbn; lia|lia|exact Hdir|].
    destruct (Hcount c eq_refl) as (Hc & _ & _).
    rewrite Hrun. cbn [fst snd files].
    destruct (Z.gtb_spec c 0); [congruence|]. intros _.
    rewrite <- written_is_write in Hc.
    destruct (written new); [exact Hf0|cbn [length] in Hc; lia].
Qed.

(** X21: With [-n N] for [N <= 0] nothing is downloaded: [main] ends in exit
    code 2 (or in the exception of the resolver), requests no image and
    leaves the disk as it was. *)
Theorem main_nonpositive_count (args : Args) (st : state W) :
  num_images args <= 0 ->
  (fst (main args st) = Returns 2
   \/ exists e, fst (main args st) = Raises e /\ e <> RequestException)
  /\ files (snd (main args st)) = files st
  /\ dirs (snd (main args st)) = dirs st
  /\ exists new : list event,
       trace (snd (main args st)) = trace st ++ new
       /\ List.filter is_get new = [].
Proof.
  intros Hle. unfold main.
  destruct (fetch_image_urls_nonpositive_limit_aux (query args) (num_images args)
              (create_session (retries args) (backoff args) (ua args)
                 DEFAULT_ACCEPT_LANGUAGE) st Hle) as [Hnil|(e & He & Hne)];
    destruct (fetch_image_urls_frame (query args) (num_images args)
                (create_session (retries args) (backoff args) (ua args)
                   DEFAULT_ACCEPT_LANGUAGE) st) as (new & Htr & Hf & Hd & Hg & _);
    destruct (fetch_image_urls _ _ _ _) as [found st1]; cbn [fst snd] in *;
    subst found; cbn [nonempty negb fst snd].
  - repeat split; eauto.
  - repeat split; eauto.
Qed.

(** X22: [main] requests at most three times as many images as [-n] allows, and
    on disk it touches nothing but [image_1.jpg] ... [image_N.jpg] in the
    output directory, [N] being the value of [-n]. *)
Theorem main_bounded_by_count (args : Args) (st : state W) :
  (exists new : list event,
      trace (snd (main args st)) = trace st ++ new
      /\ Z.of_nat (length (List.filter is_get new))
         <= 3 * Z.max 0 (num_images args))
  /\ (forall p : string,
        (forall i : nat, 1 <= Z.of_nat i <= num_images args ->
                         p <> os_path_join (output args) (image_name i)) ->
        files (snd (main args st)) !! p = files st !! p).
Proof.
  unfold main.
  destruct (fetch_image_urls_frame (query args) (num_images args)
              (create_session (retries args) (backoff args) (ua args)
                 DEFAULT_ACCEPT_LANGUAGE) st) as (new0 & Htr0 & Hf0 & _ & Hg0 & _).
  pose proof (fetch_result_length (query args) (num_images args)
                (create_session (retries args) (backoff args) (ua args)
                   DEFAULT_ACCEPT_LANGUAGE) st) as Hlen.
  destruct (fetch_image_urls _ _ _ _) as [[urls|x] st1]; cbn [fst snd] in *.
  - specialize (Hlen urls eq_refl).
    destruct urls as [|u urls]; cbn [nonempty negb fst snd].
    + split; [|intros p _; rewrite Hf0; reflexivity].
      exists new0. rewrite Hg0. cbn [length]. split; [exact Htr0|lia].
    + set (urls' := u :: urls) in *.
      set (sess := create_session _ _ _ _) in *.
      split.
      * unfold download_images, makedirs.
        destruct (String.eqb (output args) EmptyString).
        -- cbn [snd]. exists new0. rewrite Hg0. cbn [length].
           split; [exact Htr0|lia].
        -- match goal with
           | |- context [download_each urls' 1 0 _ _ _ _ ?s] =>
               destruct (download_each_requests (output args) sess 3 1%Q urls'
                           1%nat 0 s) as (new & Htr & Hg & _)
           end.
           destruct (download_each _ _ _ _ _ _ _ _) as [[ok|e] st2];
             cbn [snd] in *;
             (exists (new0 ++ EvMakedirs (output args) :: new);
              rewrite Htr; cbn [trace];
              rewrite Htr0, <- !app_assoc; split; [reflexivity|];
              rewrite filter_length_app, Hg0;
              cbn [List.filter is_get length Nat.add]; lia).
      * intros p Hp. destruct st1 as [w1 fs1 ds1 tr1]. cbn [files] in Hf0.
        destruct (download_images_shape urls' (output args) sess 3 1%Q w1)
          as (res & w' & new & made & Hrun & _ & Hpos & _).
        rewrite Hrun. subst fs1.
        assert (Hsame : apply_writes (written new) (files st) !! p = files st !! p).
        { apply apply_writes_untouched.
          eapply Forall_impl; [exact Hpos|].
          intros q (i & Hi & Hq) Heq. apply (Hp i); [lia|congruence]. }
        destruct res; cbn [snd files]; exact Hsame.
  - split; [|intros p _; rewrite Hf0; reflexivity].
    exists new0. rewrite Hg0. cbn [length]. split; [exact Htr0|lia].
Qed.

End Orchestrator_more.

(** X11: The positional names of distinct indices are distinct files. *)
Theorem positional_names_distinct (output_dir : string) (i j : nat) :
  os_path_join output_dir (image_name i) = os_path_join output_dir (image_name j) ->
  i = j.
Proof. intros Heq. apply image_name_inj. exact (os_path_join_inj _ _ _ Heq). Qed.

(** ** The further properties on concrete upstreams *)

(** Three 403 answers with three attempts allowed. *)
Lemma download_image_exhausts_attempts_witness :
  @download_image scripted (scripted_upstream true) (JStr urlB)
    "outdir/image_2.jpg" a_session 3 1%Q (start abc_upstream)
  = (Returns false,
     mkState {| page := ScriptMissing; api := GetRaises;
                images := [(urlA, [ok_response "AAAA"]); (urlB, []);
                           (urlC, [ok_response "CCCC"])] |}
       ∅ ∅
       [EvGet (JStr urlB) (Response forbidden); EvSleep (1 * 1)%Q;
        EvGet (JStr urlB) (Response forbidden); EvSleep (1 * 2)%Q;
        EvGet (JStr urlB) (Response forbidden); EvSleep (1 * 4)%Q]).
Proof.
  refine (proj1 (@download_image_exhausts_attempts scripted
                   (scripted_upstream true) (JStr urlB) "outdir/image_2.jpg"
                   a_session 3 1%Q (start abc_upstream)
                   [forbidden; forbidden; forbidden] _ _ _ _ _ _)).
  - show_throttled.
  - reflexivity.
  - unfold Qle. simpl. lia.
  - lia.
  - unfold sleeps_within_range, Qle. simpl. lia.
Defined.

(** Two 429 answers, then 200, with five attempts allowed. *)
Lemma download_image_succeeds_after_throttling_witness :
  @download_image scripted (scripted_upstream true) (JStr urlA)
    "outdir/image_1.jpg" a_session 5 1%Q (start throttled_upstream)
  = (Returns true,
     mkState {| page := ScriptMissing; api := GetRaises;
                images := [(urlA, [])] |}
       (<["outdir/image_1.jpg"%string := "AAAA"%string]> ∅) ∅
       [EvGet (JStr urlA) (Response too_many); EvSleep (1 * 1)%Q;
        EvGet (JStr urlA) (Response too_many); EvSleep (1 * 2)%Q;
        EvGet (JStr urlA) (ok_response "AAAA");
        EvWrite "outdir/image_1.jpg" "AAAA"]).
Proof.
  refine (@download_image_succeeds_after_throttling scripted
            (scripted_upstream true) (JStr urlA) "outdir/image_1.jpg"
            a_session 5 1%Q (start throttled_upstream)
            [too_many; too_many]
            {| page := ScriptMissing; api := GetRaises;
               images := [(urlA, [ok_response "AAAA"])] |}
            _ {| status_code := 200; content := "AAAA"; json_body := None |}
            _ _ _ _ _ _ _).
  - show_throttled.
  - reflexivity.
  - reflexivity.
  - simpl. lia.
  - unfold Qle. simpl. lia.
  - simpl. lia.
  - unfold sleeps_within_range, Qle. simpl. lia.
Defined.

(** A 429, a 403, then a broken connection. *)
Lemma download_image_gives_up_witness :
  @download_image scripted (scripted_upstream true) (JStr urlA)
    "outdir/image_1.jpg" a_session 3 1%Q (start flaky_upstream)
  = (Returns false,
     mkState {| page := ScriptMissing; api := GetRaises;
                images := [(urlA, [])] |}
       ∅ ∅
       [EvGet (JStr urlA) (Response too_many); EvSleep (1 * 1)%Q;
        EvGet (JStr urlA) (Response forbidden); EvSleep (1 * 2)%Q;
        EvGet (JStr urlA) GetRaises]).
Proof.
  refine (@download_image_gives_up scripted (scripted_upstream true)
            (JStr urlA) "outdir/image_1.jpg" a_session 3 1%Q
            (start flaky_upstream) [too_many; forbidden]
            {| page := ScriptMissing; api := GetRaises;
               images := [(urlA, [])] |}
            _ GetRaises _ _ _ _ _ _ _).
  - show_throttled.
  - reflexivity.
  - reflexivity.
  - simpl. lia.
  - unfold Qle. simpl. lia.
  - simpl. lia.
  - unfold sleeps_within_range, Qle. simpl. lia.
Defined.

(** A 429 met with a backoff factor of -1. *)
Lemma download_image_negative_backoff_raises_witness :
  @download_image scripted (scripted_upstream true) (JStr urlA)
    "outdir/image_1.jpg" a_session 3 (-1)%Q (start throttled_upstream)
  = (Raises ValueError,
     mkState {| page := ScriptMissing; api := GetRaises;
                images := [(urlA, [status_response 429; ok_response "AAAA"])] |}
       ∅ ∅ [EvGet (JStr urlA) (Response too_many)]).
Proof.
  refine (@download_image_negative_backoff_raises scripted
            (scripted_upstream true) (JStr urlA) "outdir/image_1.jpg"
            a_session 3 (-1)%Q (start throttled_upstream) too_many _ _ _ _ _ _).
  - lia.
  - unfold Qle. simpl. lia.
  - unfold Qlt. simpl. lia.
  - reflexivity.
  - reflexivity.
Defined.

(** A download that succeeds at the third attempt, and a file it has no
    business with. *)
Lemma download_image_disk_effect_witness :
  let run := @download_image scripted (scripted_upstream true) (JStr urlA)
               "outdir/image_1.jpg" a_session 3 1%Q
               (mkState throttled_upstream
                  {["outdir/notes.txt"%string := "keep"%string]} ∅ []) in
  files (snd run) !! "outdir/notes.txt"%string = Some "keep"%string
  /\ exists new r,
       trace (snd run) = [] ++ new
       /\ In (EvGet (JStr urlA) (Response r)) new
       /\ status_code r = 200
       /\ files (snd run) !! "outdir/image_1.jpg"%string = Some (content r).
Proof.
  pose proof (@download_image_disk_effect scripted (scripted_upstream true)
                (JStr urlA) "outdir/image_1.jpg" a_session 3 1%Q
                (mkState throttled_upstream
                   {["outdir/notes.txt"%string := "keep"%string]} ∅ []))
    as Hw.
  cbv zeta in *. destruct Hw as (Hother & Hok & _). split.
  - rewrite Hother; [reflexivity|discriminate].
  - apply Hok. reflexivity.
Defined.

(** The notes in the output directory survive the three downloads. *)
Lemma download_images_touches_only_positional_names_witness :
  let run := @download_images scripted (scripted_upstream true)
               [JStr urlA; JStr urlB; JStr urlC] "outdir" a_session 3 1%Q
               outdir_with_notes in
  files (snd run) !! "outdir/notes.txt"%string
    = files outdir_with_notes !! "outdir/notes.txt"%string.
Proof.
  apply (@download_images_touches_only_positional_names scripted
           (scripted_upstream true) [JStr urlA; JStr urlB; JStr urlC]
           "outdir" a_session 3 1%Q outdir_with_notes "outdir/notes.txt").
  intros i Hi Heq.
  destruct i as [|[|[|[|i]]]]; simpl in Hi; try lia;
    vm_compute in Heq; discriminate.
Defined.

(** Two successes out of three in an empty directory: two files. *)
Lemma download_images_one_file_per_success_witness :
  Z.of_nat (size (files (snd (@download_images scripted (scripted_upstream true)
                                [JStr urlA; JStr urlB; JStr urlC] "outdir"
                                a_session 3 1%Q (start abc_upstream)))))
  = Z.of_nat (size (files (start abc_upstream))) + 2.
Proof.
  apply (@download_images_one_file_per_success scripted
           (scripted_upstream true) [JStr urlA; JStr urlB; JStr urlC]
           "outdir" a_session 3 1%Q (start abc_upstream) 2).
  - intros i. reflexivity.
  - reflexivity.
Defined.

(** Names of the indices 1 and 1. *)
Lemma positional_names_distinct_witness :
  os_path_join "outdir" (image_name 1) = os_path_join "outdir" (image_name 1)
  /\ 1%nat = 1%nat.
Proof.
  split; [reflexivity|].
  apply (positional_names_distinct "outdir" 1 1). reflexivity.
Defined.

(** Limit 2 on a page with three pins. *)
Lemma fetch_image_urls_length_bound_witness :
  Z.of_nat (length [JStr urlA; JStr urlB]) <= Z.max 0 2.
Proof.
  apply (@fetch_image_urls_length_bound scripted (scripted_upstream true)
           "gatti" 2 a_session (start rendered_upstream)).
  reflexivity.
Defined.

(** The urls found on a page with three pins. *)
Lemma fetch_image_urls_returns_truthy_witness :
  Forall (fun u => truthy u = true) [JStr urlA; JStr urlB; JStr urlC].
Proof.
  apply (@fetch_image_urls_returns_truthy scripted (scripted_upstream true)
           "gatti" 5 a_session (start rendered_upstream)).
  reflexivity.
Defined.

(** No script element on the page and a 503 from the API. *)
Lemma fetch_image_urls_total_failure_witness :
  fst (@fetch_image_urls scripted (scripted_upstream true)
         "gatti" 5 a_session (start unavailable_upstream))
  = Returns [].
Proof.
  apply (@fetch_image_urls_total_failure scripted (scripted_upstream true)
           "gatti" 5 a_session (start unavailable_upstream)
           (status_response 503) unavailable_upstream).
  - reflexivity.
  - reflexivity.
  - reflexivity.
Defined.


(** Two pins, then a pin that is a bare string, then one more pin. *)
Lemma primary_stage_keeps_urls_before_broken_pin_witness :
  fst (@fetch_image_urls scripted (scripted_upstream true)
         "gatti" 5 a_session (start broken_page_upstream))
  = Returns [JStr urlA; JStr urlB]
  /\ api_requests
       (trace (snd (@fetch_image_urls scripted (scripted_upstream true)
                      "gatti" 5 a_session (start broken_page_upstream))))
     = api_requests (trace (start broken_page_upstream)).
Proof.
  apply (@primary_stage_keeps_urls_before_broken_pin scripted
           (scripted_upstream true) "gatti" 5 a_session
           (start broken_page_upstream) "{...}"
           (pws_data [("1", pin urlA); ("2", pin urlB);
                      ("3", JStr "oops"); ("4", pin urlC)]%string)
           [("1", pin urlA); ("2", pin urlB);
            ("3", JStr "oops"); ("4", pin urlC)]%string
           broken_page_upstream
           [pin urlA; pin urlB] [pin urlC] [JStr urlA; JStr urlB]
           (JStr "oops") AttributeError).
  - reflexivity.
  - reflexivity.
  - discriminate.
  - reflexivity.
  - reflexivity.
  - show_discovered.
  - discriminate.
  - simpl. lia.
  - reflexivity.
Defined.

(** Two results, then a result that is [null], with limit 5. *)
Lemma fallback_stage_loses_urls_before_broken_result_witness :
  fst (@fetch_image_urls scripted (scripted_upstream true)
         "gatti" 5 a_session (start broken_api_upstream))
  = Raises AttributeError.
Proof.
  apply (@fallback_stage_loses_urls_before_broken_result scripted
           (scripted_upstream true) "gatti" 5 a_session
           (start broken_api_upstream)
           {| status_code := 200; content := "";
              json_body := Some (api_payload [pin urlA; pin urlB; JNull]) |}
           (api_payload [pin urlA; pin urlB; JNull]) broken_api_upstream
           [pin urlA; pin urlB] [] [JStr urlA; JStr urlB] JNull AttributeError).
  - reflexivity.
  - reflexivity.
  - reflexivity.
  - reflexivity.
  - reflexivity.
  - show_discovered.
  - simpl. lia.
  - reflexivity.
Defined.

(** The same answer with limit 2: the [null] is never reached. *)
Lemma fallback_stage_ignores_results_after_limit_witness :
  fst (@fetch_image_urls scripted (scripted_upstream true)
         "gatti" 2 a_session (start broken_api_upstream))
  = Returns [JStr urlA; JStr urlB].
Proof.
  apply (@fallback_stage_ignores_results_after_limit scripted
           (scripted_upstream true) "gatti" 2 a_session
           (start broken_api_upstream)
           {| status_code := 200; content := "";
              json_body := Some (api_payload [pin urlA; pin urlB; JNull]) |}
           (api_payload [pin urlA; pin urlB; JNull]) broken_api_upstream
           [pin urlA; pin urlB] [JNull] [JStr urlA; JStr urlB]).
  - reflexivity.
  - reflexivity.
  - reflexivity.
  - reflexivity.
  - reflexivity.
  - show_discovered.
  - discriminate.
  - reflexivity.
Defined.

(** Candidates are found, but no image host answers: exit code 1. *)
Lemma main_writes_nothing_unless_success_witness :
  files (snd (@main scripted (scripted_upstream true) (some_args 5)
                (start api_only_upstream)))
  = files (start api_only_upstream).
Proof.
  apply (@main_writes_nothing_unless_success scripted (scripted_upstream true)
           (some_args 5) (start api_only_upstream)).
  intros Hcode. vm_compute in Hcode. discriminate.
Defined.

(** [-n 0] on an upstream that has everything to offer. *)
Lemma main_nonpositive_count_witness :
  let run := @main scripted (scripted_upstream true) (some_args 0)
               (start full_upstream) in
  (fst run = Returns 2
   \/ exists e, fst run = Raises e /\ e <> RequestException)
  /\ files (snd run) = files (start full_upstream)
  /\ dirs (snd run) = dirs (start full_upstream)
  /\ exists new : list event,
       trace (snd run) = trace (start full_upstream) ++ new
       /\ List.filter is_get new = [].
Proof.
  apply (@main_nonpositive_count scripted (scripted_upstream true)
           (some_args 0) (start full_upstream)).
  simpl. lia.
Defined.

(** [-n 2] when three candidates exist: [image_3.jpg] is not touched. *)
Lemma main_bounded_by_count_witness :
  files (snd (@main scripted (scripted_upstream true) (some_args 2)
                (start full_upstream))) !! "outdir/image_3.jpg"%string
  = files (start full_upstream) !! "outdir/image_3.jpg"%string.
Proof.
  apply (proj2 (@main_bounded_by_count scripted (scripted_upstream true)
                  (some_args 2) (start full_upstream))).
  intros i Hi Heq. simpl in Hi.
  destruct i as [|[|[|i]]]; try lia; vm_compute in Heq; discriminate.
Defined.
